(** * API 510 inspection manager: the calculation and aggregation engine

    A shallow embedding of [server/calculations.ts], of the reading
    reduction of [calculationRouter.recalculate] in [server/routers.ts] and
    of [getMaterialStressValue] in the database helpers, followed by the
    properties of the specification that concern them.

    Numbers.  A JavaScript [number] is an IEEE double.  Finite doubles are
    modelled by exact rationals ([Q]), so the rounding error of each
    floating point operation is not part of the model; the two infinities
    and NaN are kept as separate values ([num]), because the code returns
    [Infinity] on purpose and NaN can arise from [parseFloat] and from
    [Math.sqrt].  Signed zeros are not distinguished.  In [Calculations]
    the arguments of type [number] are finite ([Q]); a result is a [num]
    where the code can produce a non-finite value and a [Q] where it
    cannot.  [NumCalculations] has the corrosion-rate analyzers on every
    number, [DbDouble] the stress lookup with its interpolation in IEEE
    binary64, and [RouterChecked] the grouping of readings on a plain
    object, inherited members included. *)

From Stdlib Require Import QArith Qround Qminmax Lqa ZArith Lia List Bool.
From Stdlib Require Import Ascii String Qabs.
From Stdlib Require PrimFloat FloatOps SpecFloat Uint63.
Import ListNotations.

Open Scope Q_scope.

(* ------------------------------------------------------------------ *)
(** * JavaScript numbers *)

Module JsNumber.

Inductive num : Type :=
| Fin (q : Q)
| PInf
| NInf
| NaN.

(** Strict comparison of finite numbers, [x < y]. *)
Definition Qltb (x y : Q) : bool := negb (Qle_bool y x).

(** Mathematical equality of numbers (finite values up to [==]). *)
Definition num_eqv (a b : num) : Prop :=
  match a, b with
  | Fin x, Fin y => x == y
  | PInf, PInf | NInf, NInf | NaN, NaN => True
  | _, _ => False
  end.

Definition is_finite (a : num) : bool :=
  match a with Fin _ => true | _ => false end.

Definition nopp (a : num) : num :=
  match a with
  | Fin x => Fin (- x)
  | PInf => NInf
  | NInf => PInf
  | NaN => NaN
  end.

Definition nadd (a b : num) : num :=
  match a, b with
  | NaN, _ | _, NaN => NaN
  | Fin x, Fin y => Fin (x + y)
  | PInf, NInf | NInf, PInf => NaN
  | PInf, _ | _, PInf => PInf
  | NInf, _ | _, NInf => NInf
  end.

Definition nsub (a b : num) : num := nadd a (nopp b).

(** The infinity with the sign of [s] times the sign of [x]; NaN for
    [x == 0] (infinity times zero). *)
Definition inf_times (s : bool) (x : Q) : num :=
  if Qeq_bool x 0 then NaN
  else if Bool.eqb s (Qltb 0 x) then PInf else NInf.

Definition nmul (a b : num) : num :=
  match a, b with
  | NaN, _ | _, NaN => NaN
  | Fin x, Fin y => Fin (x * y)
  | PInf, Fin y => inf_times true y
  | NInf, Fin y => inf_times false y
  | Fin x, PInf => inf_times true x
  | Fin x, NInf => inf_times false x
  | PInf, PInf | NInf, NInf => PInf
  | PInf, NInf | NInf, PInf => NInf
  end.

(** Division; a zero divisor is taken as [+0]. *)
Definition ndiv (a b : num) : num :=
  match a, b with
  | NaN, _ | _, NaN => NaN
  | Fin x, Fin y =>
      if Qeq_bool y 0 then
        (if Qeq_bool x 0 then NaN else if Qltb 0 x then PInf else NInf)
      else Fin (x / y)
  | Fin _, _ => Fin 0
  | PInf, Fin y => if Qltb y 0 then NInf else PInf
  | NInf, Fin y => if Qltb y 0 then PInf else NInf
  | _, _ => NaN
  end.

(** [a <= b] and [a < b] as JavaScript evaluates them: false as soon as
    one side is NaN. *)
Definition nleb (a b : num) : bool :=
  match a, b with
  | NaN, _ | _, NaN => false
  | Fin x, Fin y => Qle_bool x y
  | NInf, _ | _, PInf => true
  | _, _ => false
  end.

Definition nltb (a b : num) : bool :=
  match a, b with
  | NaN, _ | _, NaN => false
  | Fin x, Fin y => Qltb x y
  | PInf, _ | _, NInf => false
  | _, _ => true
  end.

(** [Math.round]: the nearest integer, halves towards positive infinity. *)
Definition Qround_half_up (x : Q) : Z := Qfloor (x + 0.5).

Definition Math_round (a : num) : num :=
  match a with
  | Fin x => Fin (inject_Z (Qround_half_up x))
  | other => other
  end.

Definition Math_floor (a : num) : num :=
  match a with
  | Fin x => Fin (inject_Z (Qfloor x))
  | other => other
  end.

(** [Math.min(a, b)]: NaN as soon as one argument is NaN. *)
Definition nmin (a b : num) : num :=
  match a, b with
  | NaN, _ | _, NaN => NaN
  | _, _ => if nleb a b then a else b
  end.

(** [Math.min(...xs)]; [Infinity] for no argument. *)
Definition Math_min (xs : list num) : num := fold_right nmin PInf xs.

(** [Math.min] of two finite numbers. *)
Definition Qmin2 (x y : Q) : Q := if Qle_bool x y then x else y.

(** [x || d] for an optional number [x]: [undefined] and [0] are falsy. *)
Definition truthy (x : option Q) : bool :=
  match x with
  | Some q => negb (Qeq_bool q 0)
  | None => false
  end.

(** The optional number is missing or holds zero. *)
Definition absent_or_zero (x : option Q) : Prop :=
  match x with
  | Some q => q == 0
  | None => True
  end.

Definition or_opt (x y : option Q) : option Q := if truthy x then x else y.

Definition or_num (x : option Q) (d : Q) : Q :=
  match x with
  | Some q => if Qeq_bool q 0 then d else q
  | None => d
  end.

End JsNumber.
Import JsNumber.

Declare Scope num_scope.
Delimit Scope num_scope with num.
Bind Scope num_scope with num.
Infix "+" := nadd : num_scope.
Infix "-" := nsub : num_scope.
Infix "*" := nmul : num_scope.
Infix "/" := ndiv : num_scope.
Infix "<=?" := nleb : num_scope.
Infix "<?" := nltb : num_scope.
Infix "=n=" := num_eqv (at level 70, no associativity).

(* ------------------------------------------------------------------ *)
(** * server/calculations.ts *)

Module Calculations.

Inductive ComponentType : Type := shell | head | nozzle.
Inductive HeadType : Type := ellipsoidal | torispherical | hemispherical.
Inductive RateTag : Type := LT | ST.

Record CalculationInput : Type := mkInput {
  designPressure : Q;
  designTemperature : Q;
  insideDiameter : Q;
  allowableStress : Q;
  jointEfficiency : Q;
  actualThickness : Q;
  previousThickness : option Q;
  nominalThickness : option Q;
  corrosionAllowance : option Q;
  timeSpan : option Q;
  initialThickness : option Q;
  totalTimeSpan : option Q;
  componentType : option ComponentType;
  headType : option HeadType
}.

(** [nextInspectionDate] is the current date moved forward by a whole
    number of years; the record keeps that number of years. *)
Record CalculationResult : Type := mkResult {
  minimumThickness : num;
  calculatedMAWP : Q;
  corrosionRate : Q;
  corrosionRateLT : Q;
  corrosionRateST : Q;
  governingRate : RateTag;
  governingRateReason : string;
  remainingLife : num;
  nextInspectionYears : num;
  nextInspectionDate : num;
  isBelowMinimum : bool;
  statusMessage : string
}.

Definition MIN_NOMINAL_RATE : Q := 0.001.
Definition MAX_INSPECTION_INTERVAL : Q := 10.

Definition calculateShellMinimumThickness
    (pressure radius allowableStress jointEfficiency : Q) : num :=
  let denominator := (allowableStress * jointEfficiency) - (0.6 * pressure) in
  if Qle_bool denominator 0 then PInf
  else Fin ((pressure * radius) / denominator).

Definition calculateEllipsoidalHeadMinimumThickness
    (pressure diameter allowableStress jointEfficiency : Q) : num :=
  let denominator :=
    (2 * allowableStress * jointEfficiency) - (0.2 * pressure) in
  if Qle_bool denominator 0 then PInf
  else Fin ((pressure * diameter) / denominator).

Definition calculateHemisphericalHeadMinimumThickness
    (pressure radius allowableStress jointEfficiency : Q) : num :=
  let denominator :=
    (2 * allowableStress * jointEfficiency) - (0.2 * pressure) in
  if Qle_bool denominator 0 then PInf
  else Fin ((pressure * radius) / denominator).

Definition calculateShellMAWP
    (thickness radius allowableStress jointEfficiency : Q) : Q :=
  let denominator := radius + (0.6 * thickness) in
  if Qle_bool denominator 0 then 0
  else (allowableStress * jointEfficiency * thickness) / denominator.

Definition calculateEllipsoidalHeadMAWP
    (thickness diameter allowableStress jointEfficiency : Q) : Q :=
  let denominator := diameter + (0.2 * thickness) in
  if Qle_bool denominator 0 then 0
  else (2 * allowableStress * jointEfficiency * thickness) / denominator.

Definition calculateHemisphericalHeadMAWP
    (thickness radius allowableStress jointEfficiency : Q) : Q :=
  let denominator := radius + (0.2 * thickness) in
  if Qle_bool denominator 0 then 0
  else (2 * allowableStress * jointEfficiency * thickness) / denominator.

Definition calculateShortTermCorrosionRate
    (previousThickness actualThickness timeSpan : Q) : Q :=
  if Qle_bool timeSpan 0 then MIN_NOMINAL_RATE
  else
    let rate := (previousThickness - actualThickness) / timeSpan in
    if Qltb rate 0 then MIN_NOMINAL_RATE
    else if Qeq_bool rate 0 then MIN_NOMINAL_RATE
    else rate.

Definition calculateLongTermCorrosionRate
    (initialThickness actualThickness totalTimeSpan : Q) : Q :=
  if Qle_bool totalTimeSpan 0 then MIN_NOMINAL_RATE
  else
    let rate := (initialThickness - actualThickness) / totalTimeSpan in
    if Qltb rate 0 then MIN_NOMINAL_RATE
    else if Qeq_bool rate 0 then MIN_NOMINAL_RATE
    else rate.

(** The minimum thickness comes from the formulas above and may be
    [Infinity] or NaN. *)
Definition calculateRemainingLife
    (actualThickness : Q) (minimumThickness : num) (corrosionRate : Q) : num :=
  if Qle_bool corrosionRate 0 then Fin 999
  else
    let corrosionAllowance := (Fin actualThickness - minimumThickness)%num in
    if (corrosionAllowance <=? Fin 0)%num then Fin 0
    else (corrosionAllowance / Fin corrosionRate)%num.

Definition calculateNextInspectionInterval (remainingLife : num) : num :=
  if (remainingLife <=? Fin 0)%num then Fin 0
  else
    let halfLife := (remainingLife / Fin 2)%num in
    nmin halfLife (Fin MAX_INSPECTION_INTERVAL).

(** [Math.round(x * k) / k]. *)
Definition round_to (k : Q) (x : Q) : Q :=
  inject_Z (Qround_half_up (x * k)) / k.

Definition nround_to (k : Q) (a : num) : num :=
  (Math_round (a * Fin k) / Fin k)%num.

(** The branch of [performComponentCalculations] that selects the
    governing rate: tag, rate and reason. *)
Definition selectGoverningRate (corrosionRateLT corrosionRateST : Q)
    : RateTag * Q * string :=
  if Qle_bool corrosionRateST corrosionRateLT then
    (LT, corrosionRateLT,
     "Long-term rate is higher - indicates sustained corrosion"%string)
  else
    (ST, corrosionRateST,
     "Short-term rate is higher - indicates accelerated recent corrosion"%string).

Section WithSqrt.

(** [Math.sqrt] on a finite non-negative argument: some finite number,
    left abstract. *)
Variable sqrt_fin : Q -> Q.

Definition Math_sqrt (a : num) : num :=
  match a with
  | Fin x => if Qltb x 0 then NaN else Fin (sqrt_fin x)
  | PInf => PInf
  | _ => NaN
  end.

Definition calculateTorisphericalHeadMinimumThickness
    (pressure crownRadius allowableStress jointEfficiency : Q)
    (knuckleRadius : option Q) : num :=
  let r := or_num knuckleRadius (crownRadius * 0.06) in
  let M := (Fin 0.25 * (Fin 3 + Math_sqrt (Fin crownRadius / Fin r)))%num in
  let denominator :=
    (2 * allowableStress * jointEfficiency) - (0.2 * pressure) in
  if Qle_bool denominator 0 then PInf
  else (Fin pressure * Fin crownRadius * M / Fin denominator)%num.

(** The locals of [performComponentCalculations], in the order of the
    source. *)
Definition pcc_radius (input : CalculationInput) : Q :=
  insideDiameter input / 2.

Definition pcc_diameter (input : CalculationInput) : Q :=
  insideDiameter input.

Definition pcc_minimumThickness (input : CalculationInput) : num :=
  match componentType input with
  | Some head =>
      match headType input with
      | Some hemispherical =>
          calculateHemisphericalHeadMinimumThickness
            (designPressure input) (pcc_radius input)
            (allowableStress input) (jointEfficiency input)
      | Some torispherical =>
          calculateTorisphericalHeadMinimumThickness
            (designPressure input) (pcc_diameter input)
            (allowableStress input) (jointEfficiency input) None
      | _ =>
          calculateEllipsoidalHeadMinimumThickness
            (designPressure input) (pcc_diameter input)
            (allowableStress input) (jointEfficiency input)
      end
  | _ =>
      calculateShellMinimumThickness
        (designPressure input) (pcc_radius input)
        (allowableStress input) (jointEfficiency input)
  end.

Definition pcc_calculatedMAWP (input : CalculationInput) : Q :=
  match componentType input with
  | Some head =>
      match headType input with
      | Some hemispherical =>
          calculateHemisphericalHeadMAWP
            (actualThickness input) (pcc_radius input)
            (allowableStress input) (jointEfficiency input)
      | _ =>
          calculateEllipsoidalHeadMAWP
            (actualThickness input) (pcc_diameter input)
            (allowableStress input) (jointEfficiency input)
      end
  | _ =>
      calculateShellMAWP
        (actualThickness input) (pcc_radius input)
        (allowableStress input) (jointEfficiency input)
  end.

Definition pcc_timeSpan (input : CalculationInput) : Q :=
  or_num (timeSpan input) 10.

Definition pcc_totalTimeSpan (input : CalculationInput) : Q :=
  or_num (totalTimeSpan input) (pcc_timeSpan input).

Definition pcc_previousThickness (input : CalculationInput) : Q :=
  or_num (or_opt (previousThickness input) (nominalThickness input))
         (actualThickness input).

Definition pcc_initialThickness (input : CalculationInput) : Q :=
  or_num (or_opt (initialThickness input) (nominalThickness input))
         (pcc_previousThickness input).

Definition pcc_corrosionRateST (input : CalculationInput) : Q :=
  calculateShortTermCorrosionRate
    (pcc_previousThickness input) (actualThickness input) (pcc_timeSpan input).

Definition pcc_corrosionRateLT (input : CalculationInput) : Q :=
  calculateLongTermCorrosionRate
    (pcc_initialThickness input) (actualThickness input)
    (pcc_totalTimeSpan input).

Definition performComponentCalculations (input : CalculationInput)
    : CalculationResult :=
  let minimumThickness := pcc_minimumThickness input in
  let calculatedMAWP := pcc_calculatedMAWP input in
  let corrosionRateST := pcc_corrosionRateST input in
  let corrosionRateLT := pcc_corrosionRateLT input in
  let '(governingRate, corrosionRate, governingRateReason) :=
    selectGoverningRate corrosionRateLT corrosionRateST in
  let remainingLife :=
    calculateRemainingLife (actualThickness input) minimumThickness
                           corrosionRate in
  let nextInspectionYears := calculateNextInspectionInterval remainingLife in
  let nextInspectionDate := Math_floor nextInspectionYears in
  let isBelowMinimum := (Fin (actualThickness input) <? minimumThickness)%num in
  let statusMessage :=
    if isBelowMinimum then "UNSAFE - BELOW MINIMUM THICKNESS"%string
    else if (remainingLife <? Fin 2)%num then
      "CRITICAL - Less than 2 years remaining life"%string
    else if (remainingLife <? Fin 5)%num then
      "WARNING - Less than 5 years remaining life"%string
    else "ACCEPTABLE"%string in
  {| minimumThickness := nround_to 1000 minimumThickness;
     calculatedMAWP := round_to 10 calculatedMAWP;
     corrosionRate := round_to 10000 corrosionRate;
     corrosionRateLT := round_to 10000 corrosionRateLT;
     corrosionRateST := round_to 10000 corrosionRateST;
     governingRate := governingRate;
     governingRateReason := governingRateReason;
     remainingLife := nround_to 10 remainingLife;
     nextInspectionYears := nround_to 10 nextInspectionYears;
     nextInspectionDate := nextInspectionDate;
     isBelowMinimum := isBelowMinimum;
     statusMessage := statusMessage |}.

End WithSqrt.

End Calculations.
Import Calculations.

(* ------------------------------------------------------------------ *)
(** * The material stress table and [getMaterialStressValue] *)

Module Db.

(** A row of [materialStressValues]; both columns are [int]. *)
Record MaterialStressValue : Type := mkRow {
  materialSpec : string;
  temperature : Z;
  allowableStress : Z
}.

(** [ORDER BY temperature]: a stable insertion sort, so that among rows of
    one temperature the first of the table is the first of the result. *)
Fixpoint insert_by (leb : Z -> Z -> bool) (x : MaterialStressValue)
    (l : list MaterialStressValue) : list MaterialStressValue :=
  match l with
  | [] => [x]
  | y :: l' =>
      if leb (temperature x) (temperature y) then x :: l
      else y :: insert_by leb x l'
  end.

Definition order_by (leb : Z -> Z -> bool) (l : list MaterialStressValue)
    : list MaterialStressValue :=
  fold_right (insert_by leb) [] l.

Definition asc : Z -> Z -> bool := Z.leb.
Definition desc : Z -> Z -> bool := Z.geb.

Definition limit (n : nat) (l : list MaterialStressValue)
    : list MaterialStressValue := firstn n l.

(** [db] is [None] when the database is not available; the target
    temperature is any finite number. *)
Definition getMaterialStressValue (db : option (list MaterialStressValue))
    (spec : string) (target : Q) : option Z :=
  match db with
  | None => None
  | Some materialStressValues =>
      let lowerResult :=
        limit 1 (order_by desc
          (filter (fun row => String.eqb (materialSpec row) spec
                              && Qle_bool (inject_Z (temperature row)) target)
                  materialStressValues)) in
      let upperResult :=
        limit 1 (order_by asc
          (filter (fun row => String.eqb (materialSpec row) spec
                              && Qle_bool target (inject_Z (temperature row)))
                  materialStressValues)) in
      match lowerResult, upperResult with
      | [], [] => None
      | [], upper :: _ => Some (allowableStress upper)
      | lower :: _, [] => Some (allowableStress lower)
      | lower :: _, upper :: _ =>
          if Z.eqb (temperature lower) (temperature upper) then
            Some (allowableStress lower)
          else
            let t1 := inject_Z (temperature lower) in
            let t2 := inject_Z (temperature upper) in
            let s1 := inject_Z (allowableStress lower) in
            let s2 := inject_Z (allowableStress upper) in
            let interpolatedStress :=
              s1 + ((target - t1) / (t2 - t1)) * (s2 - s1) in
            Some (Qround_half_up interpolatedStress)
      end
  end.

(** ** The lookup as the specification words it *)

Definition tabulated (table : list MaterialStressValue) (spec : string)
    (row : MaterialStressValue) : Prop :=
  In row table /\ materialSpec row = spec.

(** The greatest tabulated temperature at or below the target. *)
Definition lower_bound (table : list MaterialStressValue) (spec : string)
    (target : Q) (row : MaterialStressValue) : Prop :=
  tabulated table spec row /\ inject_Z (temperature row) <= target /\
  forall row', tabulated table spec row' ->
               inject_Z (temperature row') <= target ->
               (temperature row' <= temperature row)%Z.

(** The least tabulated temperature at or above the target. *)
Definition upper_bound (table : list MaterialStressValue) (spec : string)
    (target : Q) (row : MaterialStressValue) : Prop :=
  tabulated table spec row /\ target <= inject_Z (temperature row) /\
  forall row', tabulated table spec row' ->
               target <= inject_Z (temperature row') ->
               (temperature row <= temperature row')%Z.

Definition no_lower (table : list MaterialStressValue) (spec : string)
    (target : Q) : Prop :=
  forall row, tabulated table spec row -> ~ inject_Z (temperature row) <= target.

Definition no_upper (table : list MaterialStressValue) (spec : string)
    (target : Q) : Prop :=
  forall row, tabulated table spec row -> ~ target <= inject_Z (temperature row).

End Db.

(* ------------------------------------------------------------------ *)
(** * server/routers.ts: the reading reduction of [recalculate] *)

Module Router.

(** ** [parseFloat]

    Leading white space is skipped and the longest prefix that is a
    decimal literal (sign, digits, fraction, exponent, or [Infinity]) is
    read; the value is exact, where JavaScript takes the nearest double.
    NaN when no such prefix exists. *)

Definition is_digit (c : ascii) : bool :=
  let n := nat_of_ascii c in (48 <=? n)%nat && (n <=? 57)%nat.

Definition digit_value (c : ascii) : Z := Z.of_nat (nat_of_ascii c) - 48.

Definition is_space (c : ascii) : bool :=
  let n := nat_of_ascii c in
  (n =? 32)%nat || ((9 <=? n)%nat && (n <=? 13)%nat).

Fixpoint skip_spaces (s : string) : string :=
  match s with
  | String c rest => if is_space c then skip_spaces rest else s
  | EmptyString => s
  end.

(** The digits at the head of [s]: their value after [acc], how many
    there are after [count], and what follows them. *)
Fixpoint read_digits (s : string) (acc : Z) (count : nat)
    : Z * nat * string :=
  match s with
  | String c rest =>
      if is_digit c then read_digits rest (10 * acc + digit_value c) (S count)
      else (acc, count, s)
  | EmptyString => (acc, count, s)
  end.

Definition read_sign (s : string) : bool * string :=
  match s with
  | String "-"%char rest => (true, rest)
  | String "+"%char rest => (false, rest)
  | _ => (false, s)
  end.

Definition read_exponent (s : string) : Z :=
  match s with
  | String c rest =>
      if Ascii.eqb c "e"%char || Ascii.eqb c "E"%char then
        let '(negative, rest') := read_sign rest in
        let '(e, count, _) := read_digits rest' 0 0 in
        match count with
        | O => 0
        | _ => if negative then - e else e
        end
      else 0
  | EmptyString => 0
  end%Z.

Definition parseFloat (s : string) : num :=
  let '(negative, body) := read_sign (skip_spaces s) in
  if String.prefix "Infinity" body then (if negative then NInf else PInf)
  else
    let '(int_part, int_count, after_int) := read_digits body 0 0 in
    let '(frac_part, frac_count, after_frac) :=
      match after_int with
      | String "."%char rest => read_digits rest 0 0
      | _ => (0%Z, O, after_int)
      end in
    match (int_count + frac_count)%nat with
    | O => NaN
    | _ =>
        let mantissa :=
          inject_Z int_part
          + inject_Z frac_part / inject_Z (10 ^ Z.of_nat frac_count) in
        let value := mantissa * Qpower 10 (read_exponent after_frac) in
        Fin (if negative then - value else value)
    end.

(** [a || b] on nullable strings: [null] and the empty string are falsy. *)
Definition str_truthy (x : option string) : bool :=
  match x with
  | Some s => negb (String.eqb s "")
  | None => false
  end.

Definition str_or_opt (x y : option string) : option string :=
  if str_truthy x then x else y.

Definition str_or (x : option string) (d : string) : string :=
  match x with
  | Some s => if String.eqb s "" then d else s
  | None => d
  end.

(** The columns of [tmlReadings] that the calculation reads or that hold a
    thickness ([varchar], nullable). *)
Record TmlReading : Type := mkReading {
  componentType : option string;
  tml1 : option string;
  tml2 : option string;
  tml3 : option string;
  tml4 : option string;
  nominalThickness : option string;
  previousThickness : option string;
  actualThickness : option string;
  minimumThickness : option string
}.

(** ** Grouping by component type

    [componentGroups] is an object used as a map from the component type
    to the readings pushed so far; only its own keys are modelled. *)
Definition Groups : Type := list (string * list TmlReading).

Fixpoint lookup_group (groups : Groups) (type : string)
    : option (list TmlReading) :=
  match groups with
  | [] => None
  | (key, readings) :: rest =>
      if String.eqb key type then Some readings else lookup_group rest type
  end.

Fixpoint push_group (groups : Groups) (type : string) (reading : TmlReading)
    : Groups :=
  match groups with
  | [] => [(type, [reading])]
  | (key, readings) :: rest =>
      if String.eqb key type then (key, readings ++ [reading]) :: rest
      else (key, readings) :: push_group rest type reading
  end.

Definition componentGroups (tmlReadings : list TmlReading) : Groups :=
  fold_left
    (fun groups reading =>
       push_group groups (str_or (componentType reading) "shell") reading)
    tmlReadings [].

Definition components : list string := ["shell"; "east_head"; "west_head"]%string.

(** ** The worst-case thicknesses of one component

    The body of the loop over [components] up to the call of
    [performComponentCalculations]: the pair
    [(actualThickness, previousThickness)]. *)
Definition worstCaseThicknesses (inspection_nominalThickness : option string)
    (readings : list TmlReading) : num * num :=
  let actualThickness0 := parseFloat (str_or inspection_nominalThickness "0.5") in
  let previousThickness0 := actualThickness0 in
  if (0 <? List.length readings)%nat then
    let thicknesses :=
      filter (fun t => (Fin 0 <? t)%num)
        (map (fun r =>
                parseFloat (str_or (str_or_opt (actualThickness r) (tml1 r)) "0"))
             readings) in
    let prevThicknesses :=
      filter (fun t => (Fin 0 <? t)%num)
        (map (fun r => parseFloat (str_or (previousThickness r) "0"))
             readings) in
    (if (0 <? List.length thicknesses)%nat then Math_min thicknesses
     else actualThickness0,
     if (0 <? List.length prevThicknesses)%nat then Math_min prevThicknesses
     else previousThickness0)
  else (actualThickness0, previousThickness0).

Definition recalculate_thicknesses (inspection_nominalThickness : option string)
    (tmlReadings : list TmlReading) (componentType : string) : num * num :=
  let readings :=
    match lookup_group (componentGroups tmlReadings) componentType with
    | Some readings => readings
    | None => []
    end in
  worstCaseThicknesses inspection_nominalThickness readings.

(** ** The reduction as the specification words it *)

(** The angular sub-readings of a reading that hold a number. *)
Definition angle_values (r : TmlReading) : list num :=
  map parseFloat
    (flat_map (fun x => match x with Some s => [s] | None => [] end)
       [tml1 r; tml2 r; tml3 r; tml4 r]).

(** The minimum across all sub-readings and angles of the partition. *)
Definition min_over_angles (readings : list TmlReading) : num :=
  Math_min (flat_map angle_values readings).

(** The reading with other values at its second, third and fourth angle. *)
Definition with_other_angles (angles : option string * option string * option string)
    (r : TmlReading) : TmlReading :=
  let '(a2, a3, a4) := angles in
  mkReading (componentType r) (tml1 r) a2 a3 a4 (nominalThickness r)
            (previousThickness r) (actualThickness r) (minimumThickness r).

End Router.

(* ------------------------------------------------------------------ *)
(** * Sample data *)

Module Samples.

Local Open Scope string_scope.

(** A shell component inspected 5 years after the previous inspection. *)
Definition shell_input (timeSpan : option Q) : CalculationInput :=
  mkInput 150 200 48 20000 0.85 0.375 (Some 0.4) None None timeSpan
          None None (Some shell) None.

(** The same component with every optional number given as zero. *)
Definition zeroed_input : CalculationInput :=
  mkInput 150 200 48 20000 0.85 0.375 (Some 0) (Some 0) None (Some 0)
          (Some 0) (Some 0) (Some shell) None.

(** Two tabulated points of one material and one of another. *)
Definition stress_table : list Db.MaterialStressValue :=
  [Db.mkRow "SA-516-70" 100 20000;
   Db.mkRow "SA-240-304" 100 18800;
   Db.mkRow "SA-516-70" 500 19000].

(** A shell reading with four angles and no recorded actual thickness. *)
Definition four_angle_reading : Router.TmlReading :=
  Router.mkReading (Some "shell") (Some "0.500") (Some "0.300")
                   (Some "0.480") (Some "0.510") None (Some "0.520") None None.

End Samples.

(* ------------------------------------------------------------------ *)
(** * server/calculations.ts: the remaining functions *)

Module CalculationsExt.

(** A [Date] is modelled by its time value, the milliseconds since the
    epoch (valid dates only). *)
Definition msPerYear : Q := 365.25 * 24 * 60 * 60 * 1000.

Definition calculateTimeSpanYears (startDate endDate : Z) : Q :=
  (inject_Z endDate - inject_Z startDate) / msPerYear.


Section WithToFixed.

(** [x.toFixed(1)], left abstract. *)
Variable toFixed1 : Q -> string.


End WithToFixed.

(** The component of [calculateDeratedMAWP]: ['shell' | 'head'], ['shell']
    when the argument is left out. *)
Inductive DeratedComponent : Type := derated_shell | derated_head.

Definition calculateDeratedMAWP
    (actualThickness radius allowableStress jointEfficiency : Q)
    (componentType : option DeratedComponent) : Q :=
  match componentType with
  | Some derated_head =>
      calculateEllipsoidalHeadMAWP actualThickness (radius * 2)
                                   allowableStress jointEfficiency
  | _ =>
      calculateShellMAWP actualThickness radius allowableStress jointEfficiency
  end.

(** Two more locals of [performComponentCalculations], named for the
    statements below: the governing rate and the remaining life before
    they are rounded for the result. *)
Definition pcc_corrosionRate (input : CalculationInput) : Q :=
  snd (fst (selectGoverningRate (pcc_corrosionRateLT input)
                                (pcc_corrosionRateST input))).

Definition pcc_remainingLife (sqrt_fin : Q -> Q) (input : CalculationInput)
    : num :=
  calculateRemainingLife (actualThickness input)
    (pcc_minimumThickness sqrt_fin input) (pcc_corrosionRate input).

Definition dquote : ascii := "034"%char.

(** [s.replace(c, '')] for a one-character pattern: the first occurrence
    is removed. *)
Fixpoint remove_first (c : ascii) (s : string) : string :=
  match s with
  | EmptyString => EmptyString
  | String a rest =>
      if Ascii.eqb a c then rest else String a (remove_first c rest)
  end.

Definition odTable : list (Q * Q) :=
  [(0.5, 0.840); (0.75, 1.050); (1, 1.315); (1.25, 1.660); (1.5, 1.900);
   (2, 2.375); (2.5, 2.875); (3, 3.500); (4, 4.500); (6, 6.625);
   (8, 8.625); (10, 10.750); (12, 12.750); (14, 14.000); (16, 16.000);
   (18, 18.000); (20, 20.000); (24, 24.000); (30, 30.000); (36, 36.000)].

(** [table[key]] for a numeric key. *)
Fixpoint table_get (table : list (Q * Q)) (key : Q) : option Q :=
  match table with
  | [] => None
  | (k, v) :: rest => if Qeq_bool k key then Some v else table_get rest key
  end.

(** [jointEfficiency] is 1.0 when the argument is left out.  The size may
    fail to parse: the shell formula is then applied to a radius that is
    not finite. *)
Definition calculateNozzleMinimumThickness (pressure : Q) (nozzleSize : string)
    (allowableStress : Q) (jointEfficiency : option Q) : num :=
  let jointEfficiency :=
    match jointEfficiency with Some e => e | None => 1.0 end in
  let sizeNum := Router.parseFloat (remove_first dquote nozzleSize) in
  let od :=
    match sizeNum with
    | Fin n => Fin (or_num (table_get odTable n) (n + 0.375))
    | _ => (sizeNum + Fin 0.375)%num
    end in
  let radius := (od / Fin 2)%num in
  match radius with
  | Fin r =>
      calculateShellMinimumThickness pressure r allowableStress jointEfficiency
  | _ =>
      let denominator :=
        (allowableStress * jointEfficiency) - (0.6 * pressure) in
      if Qle_bool denominator 0 then PInf
      else (Fin pressure * radius / Fin denominator)%num
  end.

End CalculationsExt.

(* ------------------------------------------------------------------ *)
(** * server/routers.ts: time span, criticality and CSV export *)

Module RouterExt.

(** The time span of [recalculate]: 10 years unless both dates are set. *)
Definition recalculate_timeSpan (inspectionDate previousInspectionDate : option Z)
    : Q :=
  match inspectionDate, previousInspectionDate with
  | Some inspection, Some previous =>
      CalculationsExt.calculateTimeSpanYears previous inspection
  | _, _ => 10
  end.

(** The test that puts a component on the list of critical components. *)
Definition isCritical (calcResult : CalculationResult) : bool :=
  isBelowMinimum calcResult || (remainingLife calcResult <? Fin 2)%num.

Definition componentName (componentType : string) : string :=
  if String.eqb componentType "shell" then "Vessel Shell"
  else if String.eqb componentType "east_head" then "East Head"
  else "West Head".

Definition newline : ascii := "010"%char.

Fixpoint includes (c : ascii) (s : string) : bool :=
  match s with
  | EmptyString => false
  | String a rest => Ascii.eqb a c || includes c rest
  end.

(** Every double quote of the string is doubled. *)
Fixpoint double_quotes (s : string) : string :=
  match s with
  | EmptyString => EmptyString
  | String a rest =>
      if Ascii.eqb a CalculationsExt.dquote then
        String CalculationsExt.dquote
          (String CalculationsExt.dquote (double_quotes rest))
      else String a (double_quotes rest)
  end.

(** [escapeCSV] on a nullable string. *)
Definition escapeCSV (val : option string) : string :=
  match val with
  | None => ""
  | Some str =>
      if includes "," str || includes CalculationsExt.dquote str
         || includes newline str then
        String CalculationsExt.dquote
          (double_quotes str ++ String CalculationsExt.dquote "")
      else str
  end.

(** ** Reading a CSV field back

    Not part of the source: the usual reader of a CSV field, against which
    [escapeCSV] is checked.  Inside quotes a doubled quote stands for one
    quote and a single quote ends the field. *)
Fixpoint read_quoted (s : string) : string :=
  match s with
  | EmptyString => EmptyString
  | String a rest =>
      if Ascii.eqb a CalculationsExt.dquote then
        match rest with
        | String b rest' =>
            if Ascii.eqb b CalculationsExt.dquote then
              String CalculationsExt.dquote (read_quoted rest')
            else EmptyString
        | EmptyString => EmptyString
        end
      else String a (read_quoted rest)
  end.

Definition read_csv_field (field : string) : string :=
  match field with
  | String a rest =>
      if Ascii.eqb a CalculationsExt.dquote then read_quoted rest else field
  | EmptyString => EmptyString
  end.

End RouterExt.

(* ------------------------------------------------------------------ *)
(** * The corrosion-rate analyzers on every number

    [calculateShortTermCorrosionRate] and [calculateLongTermCorrosionRate]
    once more, with arguments that may be NaN or infinite, as
    [recalculate] can supply them ([parseFloat] of a text that is no
    number).  On finite arguments they are the functions of
    [Calculations]. *)

Module NumCalculations.

(** [a === b] on numbers: false as soon as one side is NaN. *)
Definition nstrict_eqb (a b : num) : bool :=
  match a, b with
  | Fin x, Fin y => Qeq_bool x y
  | PInf, PInf | NInf, NInf => true
  | _, _ => false
  end.

Definition calculateShortTermCorrosionRate
    (previousThickness actualThickness timeSpan : num) : num :=
  if (timeSpan <=? Fin 0)%num then Fin MIN_NOMINAL_RATE
  else
    let rate := ((previousThickness - actualThickness) / timeSpan)%num in
    if (rate <? Fin 0)%num then Fin MIN_NOMINAL_RATE
    else if nstrict_eqb rate (Fin 0) then Fin MIN_NOMINAL_RATE
    else rate.

Definition calculateLongTermCorrosionRate
    (initialThickness actualThickness totalTimeSpan : num) : num :=
  if (totalTimeSpan <=? Fin 0)%num then Fin MIN_NOMINAL_RATE
  else
    let rate := ((initialThickness - actualThickness) / totalTimeSpan)%num in
    if (rate <? Fin 0)%num then Fin MIN_NOMINAL_RATE
    else if nstrict_eqb rate (Fin 0) then Fin MIN_NOMINAL_RATE
    else rate.

End NumCalculations.

(* ------------------------------------------------------------------ *)
(** * [getMaterialStressValue] in double precision

    The interpolation of [getMaterialStressValue] is evaluated by
    JavaScript in IEEE binary64, and [Math.round] is applied to the double
    it yields.  Here the target temperature is a double and the
    interpolation uses the binary64 operations of the kernel; the queries
    compare the exact value of the target with the [int] column, as the
    database does. *)

Module DbDouble.

(** The exact value of a double. *)
Definition float_value (f : PrimFloat.float) : num :=
  match FloatOps.Prim2SF f with
  | SpecFloat.S754_zero _ => Fin 0
  | SpecFloat.S754_infinity false => PInf
  | SpecFloat.S754_infinity true => NInf
  | SpecFloat.S754_nan => NaN
  | SpecFloat.S754_finite negative m e =>
      Fin ((if negative then - inject_Z (Zpos m) else inject_Z (Zpos m))
           * Qpower 2 e)
  end.

(** The number read from an [int] column (exact below 2^53). *)
Definition of_int (z : Z) : PrimFloat.float :=
  match z with
  | Z0 => PrimFloat.zero
  | Zpos _ => PrimFloat.of_uint63 (Uint63.of_Z z)
  | Zneg p => PrimFloat.opp (PrimFloat.of_uint63 (Uint63.of_Z (Zpos p)))
  end.

Definition lowerResult (materialStressValues : list Db.MaterialStressValue)
    (spec : string) (target : num) : list Db.MaterialStressValue :=
  Db.limit 1 (Db.order_by Db.desc
    (filter (fun row => String.eqb (Db.materialSpec row) spec
                        && (Fin (inject_Z (Db.temperature row)) <=? target)%num)
            materialStressValues)).

Definition upperResult (materialStressValues : list Db.MaterialStressValue)
    (spec : string) (target : num) : list Db.MaterialStressValue :=
  Db.limit 1 (Db.order_by Db.asc
    (filter (fun row => String.eqb (Db.materialSpec row) spec
                        && (target <=? Fin (inject_Z (Db.temperature row)))%num)
            materialStressValues)).

(** [s1 + ((temperature - t1) / (t2 - t1)) * (s2 - s1)] in binary64. *)
Definition interpolatedStress (temperature : PrimFloat.float)
    (lower upper : Db.MaterialStressValue) : PrimFloat.float :=
  let t1 := of_int (Db.temperature lower) in
  let t2 := of_int (Db.temperature upper) in
  let s1 := of_int (Db.allowableStress lower) in
  let s2 := of_int (Db.allowableStress upper) in
  PrimFloat.add s1
    (PrimFloat.mul
       (PrimFloat.div (PrimFloat.sub temperature t1) (PrimFloat.sub t2 t1))
       (PrimFloat.sub s2 s1)).

Definition getMaterialStressValue (db : option (list Db.MaterialStressValue))
    (spec : string) (temperature : PrimFloat.float) : option num :=
  match db with
  | None => None
  | Some materialStressValues =>
      let target := float_value temperature in
      match lowerResult materialStressValues spec target,
            upperResult materialStressValues spec target with
      | [], [] => None
      | [], upper :: _ => Some (Fin (inject_Z (Db.allowableStress upper)))
      | lower :: _, [] => Some (Fin (inject_Z (Db.allowableStress lower)))
      | lower :: _, upper :: _ =>
          if Z.eqb (Db.temperature lower) (Db.temperature upper) then
            Some (Fin (inject_Z (Db.allowableStress lower)))
          else
            Some (Math_round
                    (float_value (interpolatedStress temperature lower upper)))
      end
  end.

(** ** The lookup as the specification words it *)



End DbDouble.

(* ------------------------------------------------------------------ *)
(** * Grouping on a plain object

    [componentGroups] is a plain object, so [componentGroups[type]] also
    finds the members inherited from [Object.prototype].  For a component
    type with such a name the test [!componentGroups[type]] fails, no
    array is stored, and [componentGroups[type].push] is no function:
    [recalculate] throws a [TypeError].  [None] stands for that. *)

Module RouterChecked.

Definition object_prototype_keys : list string :=
  ["constructor"; "hasOwnProperty"; "isPrototypeOf"; "propertyIsEnumerable";
   "toLocaleString"; "toString"; "valueOf"; "__proto__";
   "__defineGetter__"; "__defineSetter__"; "__lookupGetter__";
   "__lookupSetter__"]%string.

Definition inherited (type : string) : bool :=
  existsb (String.eqb type) object_prototype_keys.

(** The component type under which a reading is grouped. *)
Definition group_key (reading : Router.TmlReading) : string :=
  Router.str_or (Router.componentType reading) "shell".

Fixpoint group_readings (groups : Router.Groups)
    (tmlReadings : list Router.TmlReading) : option Router.Groups :=
  match tmlReadings with
  | [] => Some groups
  | reading :: rest =>
      let type := group_key reading in
      if inherited type then None
      else group_readings (Router.push_group groups type reading) rest
  end.

Definition componentGroups (tmlReadings : list Router.TmlReading)
    : option Router.Groups :=
  group_readings [] tmlReadings.

Definition recalculate_thicknesses (inspection_nominalThickness : option string)
    (tmlReadings : list Router.TmlReading) (componentType : string)
    : option (num * num) :=
  match componentGroups tmlReadings with
  | None => None
  | Some groups =>
      let readings :=
        match Router.lookup_group groups componentType with
        | Some readings => readings
        | None => []
        end in
      Some (Router.worstCaseThicknesses inspection_nominalThickness readings)
  end.

End RouterChecked.

(* ------------------------------------------------------------------ *)
(** * Sample data for the lookup in double precision and the grouping *)

Module DoubleSamples.

Local Open Scope string_scope.

Definition steep_table : list Db.MaterialStressValue :=
  [Db.mkRow "M" 0 0; Db.mkRow "M" 10 45].

Definition hot_table : list Db.MaterialStressValue :=
  [Db.mkRow "M" 500 17100; Db.mkRow "M" 600 14600].

(** A reading whose component type names a member of [Object.prototype]. *)
Definition constructor_reading : Router.TmlReading :=
  Router.mkReading (Some "constructor") (Some "0.400") None None None None
                   None None None.

(** The double nearest to 500.1. *)
Definition temperature_500_1 : PrimFloat.float :=
  PrimFloat.div (DbDouble.of_int 5001) (DbDouble.of_int 10).

End DoubleSamples.

(* ------------------------------------------------------------------ *)
(** * Properties *)

(** ** Comparisons of finite numbers *)

Lemma Qle_bool_false (x y : Q) : Qle_bool x y = false <-> y < x.
Proof.
  split; intro H.
  - apply Qnot_le_lt. intro Hle. apply Qle_bool_iff in Hle. congruence.
  - destruct (Qle_bool x y) eqn:E; [|reflexivity].
    apply Qle_bool_iff in E. lra.
Qed.

Lemma Qltb_true (x y : Q) : Qltb x y = true <-> x < y.
Proof.
  unfold Qltb. rewrite negb_true_iff. apply Qle_bool_false.
Qed.

Lemma Qltb_false (x y : Q) : Qltb x y = false <-> y <= x.
Proof.
  unfold Qltb. rewrite negb_false_iff. apply Qle_bool_iff.
Qed.

Lemma Qeq_bool_false (x y : Q) : Qeq_bool x y = false <-> ~ x == y.
Proof.
  split; intro H.
  - now apply Qeq_bool_neq.
  - destruct (Qeq_bool x y) eqn:E; [|reflexivity].
    apply Qeq_bool_iff in E. contradiction.
Qed.

(** Turns every boolean comparison of the context and the goal into the
    order on [Q] it decides. *)
Ltac q_reflect :=
  repeat match goal with
  | H : Qle_bool _ _ = true |- _ => apply Qle_bool_iff in H
  | H : Qle_bool _ _ = false |- _ => apply Qle_bool_false in H
  | H : Qltb _ _ = true |- _ => apply Qltb_true in H
  | H : Qltb _ _ = false |- _ => apply Qltb_false in H
  | H : Qeq_bool _ _ = true |- _ => apply Qeq_bool_iff in H
  | H : Qeq_bool _ _ = false |- _ => apply Qeq_bool_false in H
  | |- Qle_bool _ _ = true => apply Qle_bool_iff
  | |- Qle_bool _ _ = false => apply Qle_bool_false
  | |- Qltb _ _ = true => apply Qltb_true
  | |- Qltb _ _ = false => apply Qltb_false
  | |- Qeq_bool _ _ = true => apply Qeq_bool_iff
  | |- Qeq_bool _ _ = false => apply Qeq_bool_false
  end.

(** Splits on the first boolean comparison the goal branches on. *)
Ltac q_case :=
  match goal with
  | |- context [Qle_bool ?a ?b] => destruct (Qle_bool a b) eqn:?
  | |- context [Qltb ?a ?b] => destruct (Qltb a b) eqn:?
  | |- context [Qeq_bool ?a ?b] => destruct (Qeq_bool a b) eqn:?
  end; q_reflect.

Lemma Qdiv_pos (a b : Q) : 0 < a -> 0 < b -> 0 < a / b.
Proof.
  intros Ha Hb. apply Qlt_shift_div_l; [assumption | lra].
Qed.

Lemma Qdiv_sign_nonpos (a b : Q) : 0 < b -> (a / b <= 0 <-> a <= 0).
Proof.
  intro Hb. split; intro H.
  - destruct (Qlt_le_dec 0 a) as [Ha|Ha]; [|assumption].
    pose proof (Qdiv_pos a b Ha Hb). lra.
  - apply Qle_shift_div_r; [assumption | lra].
Qed.

Lemma Qdiv_lt_cross (a b c d : Q) :
  0 < b -> 0 < d -> a * d < c * b -> a / b < c / d.
Proof.
  intros Hb Hd H.
  apply Qlt_shift_div_r; [assumption|].
  setoid_replace (c / d * b) with ((c * b) / d) by (field; lra).
  apply Qlt_shift_div_l; assumption.
Qed.

(** ** Corrosion rates *)

Lemma short_term_eq_long_term (t0 actual span : Q) :
  calculateShortTermCorrosionRate t0 actual span
  = calculateLongTermCorrosionRate t0 actual span.
Proof. reflexivity. Qed.

(** C1, as stated, fails: a positive raw rate below the nominal rate is
    returned unchanged.  With 0.401 in before, 0.400 in now and 10 years
    between, both rates are 0.0001 in/yr, below the floor of 0.001. *)
Lemma rate_below_nominal_floor :
  calculateShortTermCorrosionRate 0.401 0.4 10 < MIN_NOMINAL_RATE /\
  calculateLongTermCorrosionRate 0.401 0.4 10 < MIN_NOMINAL_RATE.
Proof. split; vm_compute; reflexivity. Qed.

Lemma finite_rate_positive (t0 actual span : Q) :
  0 < calculateShortTermCorrosionRate t0 actual span.
Proof.
  unfold calculateShortTermCorrosionRate, MIN_NOMINAL_RATE.
  repeat q_case; lra.
Qed.

(** On finite arguments the analyzers on every number are the analyzers
    of [Calculations]. *)
Lemma num_rate_finite (t0 actual span : Q) :
  NumCalculations.calculateShortTermCorrosionRate (Fin t0) (Fin actual) (Fin span)
  = Fin (calculateShortTermCorrosionRate t0 actual span).
Proof.
  unfold NumCalculations.calculateShortTermCorrosionRate,
    calculateShortTermCorrosionRate.
  simpl. destruct (Qle_bool span 0) eqn:Es; [reflexivity|].
  q_reflect. destruct (Qeq_bool span 0) eqn:Ez; q_reflect; [lra|].
  simpl.
  destruct (Qltb _ 0); [reflexivity|].
  destruct (Qeq_bool _ 0); reflexivity.
Qed.

Lemma num_rate_cases (t0 actual span : num) :
  NumCalculations.calculateShortTermCorrosionRate t0 actual span
  = if (span <=? Fin 0)%num then Fin MIN_NOMINAL_RATE
    else if ((t0 - actual) / span <=? Fin 0)%num then Fin MIN_NOMINAL_RATE
    else ((t0 - actual) / span)%num.
Proof.
  unfold NumCalculations.calculateShortTermCorrosionRate.
  destruct (span <=? Fin 0)%num; [reflexivity|].
  destruct ((t0 - actual) / span)%num as [x| | |]; try reflexivity.
  simpl.
  destruct (Qltb x 0) eqn:E1; destruct (Qeq_bool x 0) eqn:E2;
    destruct (Qle_bool x 0) eqn:E3; q_reflect; try reflexivity; lra.
Qed.

(** C1, amended: for all arguments, NaN and the infinities included, both
    rate functions return exactly the nominal rate 0.001 when the span is
    <= 0 or the raw rate (delta thickness over span) is <= 0, and the raw
    rate unchanged otherwise.  The returned value is never zero or
    negative: it is NaN exactly when the span is not <= 0 and the raw rate
    is NaN, and strictly positive otherwise (on finite arguments always);
    a positive raw rate below 0.001 is returned as it is. *)
Theorem corrosion_rate_floor (t0 actual span : num) :
  let raw := ((t0 - actual) / span)%num in
  let st := NumCalculations.calculateShortTermCorrosionRate t0 actual span in
  let lt := NumCalculations.calculateLongTermCorrosionRate t0 actual span in
  lt = st /\
  ((span <=? Fin 0)%num = true \/ (raw <=? Fin 0)%num = true ->
     st = Fin MIN_NOMINAL_RATE) /\
  ((span <=? Fin 0)%num = false -> (raw <=? Fin 0)%num = false -> st = raw) /\
  (st <=? Fin 0)%num = false /\
  (st = NaN <-> (span <=? Fin 0)%num = false /\ raw = NaN) /\
  (st <> NaN -> (Fin 0 <? st)%num = true) /\
  (forall p a s, t0 = Fin p -> actual = Fin a -> span = Fin s ->
     st = Fin (calculateShortTermCorrosionRate p a s) /\
     lt = Fin (calculateLongTermCorrosionRate p a s) /\
     0 < calculateShortTermCorrosionRate p a s).
Proof.
  intros raw st lt.
  assert (Hlt : lt = st) by reflexivity.
  assert (Hst : st = if (span <=? Fin 0)%num then Fin MIN_NOMINAL_RATE
                     else if (raw <=? Fin 0)%num then Fin MIN_NOMINAL_RATE
                     else raw) by apply num_rate_cases.
  split; [exact Hlt|].
  repeat match goal with |- _ /\ _ => split end.
  - intros [H | H]; rewrite Hst.
    + now rewrite H.
    + rewrite H. now destruct (span <=? Fin 0)%num.
  - intros H1 H2. now rewrite Hst, H1, H2.
  - rewrite Hst.
    destruct (span <=? Fin 0)%num; [reflexivity|].
    destruct (raw <=? Fin 0)%num eqn:E; [reflexivity | exact E].
  - rewrite Hst. split.
    + destruct (span <=? Fin 0)%num; [discriminate|].
      destruct (raw <=? Fin 0)%num; [discriminate|]. now split.
    + intros [H1 H2]. rewrite H1, H2. reflexivity.
  - rewrite Hst. intro Hn.
    destruct (span <=? Fin 0)%num; [reflexivity|].
    destruct (raw <=? Fin 0)%num eqn:E; [reflexivity|].
    destruct raw as [x| | |]; simpl in *; try congruence.
    q_reflect. exact E.
  - intros p a s -> -> ->. rewrite Hlt. unfold st.
    rewrite num_rate_finite.
    repeat split. apply finite_rate_positive.
Qed.

Lemma corrosion_rate_floor_witness :
  NumCalculations.calculateShortTermCorrosionRate (Fin 0.375) (Fin 0.4) (Fin 5)
  = Fin MIN_NOMINAL_RATE /\
  NumCalculations.calculateShortTermCorrosionRate (Fin 0.4) (Fin 0.375) (Fin 5)
  = ((Fin 0.4 - Fin 0.375) / Fin 5)%num /\
  (Fin 0 <? NumCalculations.calculateShortTermCorrosionRate
              (Fin 0.4) (Fin 0.375) (Fin 5))%num = true /\
  NumCalculations.calculateShortTermCorrosionRate (Fin 0.4) (Fin 0.375) (Fin 5)
  = Fin (calculateShortTermCorrosionRate 0.4 0.375 5).
Proof.
  pose proof (corrosion_rate_floor (Fin 0.375) (Fin 0.4) (Fin 5))
    as (_ & H1 & _).
  pose proof (corrosion_rate_floor (Fin 0.4) (Fin 0.375) (Fin 5))
    as (_ & _ & H2 & _ & _ & H3 & H4).
  split; [apply H1; right; reflexivity|].
  split; [apply H2; reflexivity|].
  split; [apply H3; discriminate|].
  apply (H4 0.4 0.375 5); reflexivity.
Defined.

(** A NaN thickness, as [recalculate] supplies it for a nominal thickness
    that is no number, gives NaN rates. *)
Lemma rate_of_NaN_thickness :
  NumCalculations.calculateShortTermCorrosionRate NaN NaN (Fin 10) = NaN /\
  NumCalculations.calculateLongTermCorrosionRate NaN NaN (Fin 10) = NaN.
Proof. split; reflexivity. Qed.

(** ** Remaining life *)

(** C2, as stated, fails: the rate is tested first, so a component at or
    below its minimum thickness with a non-positive rate gets 999 years,
    not 0. *)
Lemma remaining_life_rate_checked_first :
  0.18 <= 0.2 /\
  calculateRemainingLife 0.18 (Fin 0.2) 0 = Fin 999 /\
  ~ calculateRemainingLife 0.18 (Fin 0.2) 0 =n= Fin 0.
Proof.
  split; [vm_compute; discriminate|].
  split; [reflexivity|]. vm_compute. discriminate.
Qed.

(** C2, amended: a non-positive rate yields the sentinel 999 whatever the
    margin is; for a positive rate a non-positive margin
    (t_actual <= t_min) yields 0, and otherwise the result is
    (t_actual - t_min) / rate. *)
Theorem remaining_life_cases (t_actual t_min rate : Q) :
  (rate <= 0 -> calculateRemainingLife t_actual (Fin t_min) rate = Fin 999) /\
  (0 < rate -> t_actual <= t_min ->
     calculateRemainingLife t_actual (Fin t_min) rate = Fin 0) /\
  (0 < rate -> t_min < t_actual ->
     calculateRemainingLife t_actual (Fin t_min) rate
     = Fin ((t_actual - t_min) / rate)).
Proof.
  unfold calculateRemainingLife; simpl.
  repeat q_case; repeat split; intros; try reflexivity; lra.
Qed.

Lemma remaining_life_cases_witness :
  calculateRemainingLife 0.375 (Fin 0.2) 0 = Fin 999 /\
  calculateRemainingLife 0.2 (Fin 0.2) 0.005 = Fin 0 /\
  calculateRemainingLife 0.375 (Fin 0.2) 0.005 = Fin ((0.375 - 0.2) / 0.005).
Proof.
  split; [|split].
  - apply (proj1 (remaining_life_cases 0.375 0.2 0)). vm_compute. discriminate.
  - apply (proj1 (proj2 (remaining_life_cases 0.2 0.2 0.005)));
      vm_compute; [reflexivity | discriminate].
  - apply (proj2 (proj2 (remaining_life_cases 0.375 0.2 0.005)));
      vm_compute; reflexivity.
Defined.

(** ** Shell formulas *)

Lemma shell_minimum_thickness_finite (P R S E : Q) :
  0.6 * P < S * E ->
  calculateShellMinimumThickness P R S E = Fin (P * R / (S * E - 0.6 * P)).
Proof.
  intro H. unfold calculateShellMinimumThickness.
  q_case; [lra | reflexivity].
Qed.

Lemma hemispherical_minimum_thickness_finite (P R S E : Q) :
  0.2 * P < 2 * S * E ->
  calculateHemisphericalHeadMinimumThickness P R S E
  = Fin (P * R / (2 * S * E - 0.2 * P)).
Proof.
  intro H. unfold calculateHemisphericalHeadMinimumThickness.
  q_case; [lra | reflexivity].
Qed.

(** C4, as stated, fails for a negative pressure on a material with
    S*E <= 0: the MAWP denominator R + 0.6 t vanishes and the MAWP is 0. *)
Lemma shell_round_trip_negative_pressure :
  0.6 * (-1) < 0 * 1 /\ 0 < 1 /\
  exists t, calculateShellMinimumThickness (-1) 1 0 1 = Fin t /\
            calculateShellMAWP t 1 0 1 == 0 /\
            ~ calculateShellMAWP t 1 0 1 == -1.
Proof.
  split; [reflexivity|]. split; [reflexivity|].
  eexists. split; [reflexivity|].
  split; vm_compute; [reflexivity | discriminate].
Qed.

(** C4, amended: for all P, R, S, E with S*E > 0.6*P, S*E > 0 and R > 0,
    the shell minimum thickness is finite and the shell MAWP at that
    thickness is P (exactly, in exact arithmetic). *)
Theorem shell_round_trip (P R S E : Q) :
  0.6 * P < S * E -> 0 < S * E -> 0 < R ->
  exists t, calculateShellMinimumThickness P R S E = Fin t /\
            calculateShellMAWP t R S E == P.
Proof.
  intros Hd Hse HR.
  exists (P * R / (S * E - 0.6 * P)).
  split; [now apply shell_minimum_thickness_finite|].
  unfold calculateShellMAWP.
  assert (Hden : R + 0.6 * (P * R / (S * E - 0.6 * P))
                 == R * (S * E) / (S * E - 0.6 * P)) by (field; lra).
  assert (Hpos : 0 < R * (S * E) / (S * E - 0.6 * P))
    by (apply Qdiv_pos; nra).
  q_case; [lra|].
  field. split; [lra|].
  assert (Hprod : 0 < R * (S * E)) by nra.
  intro Hz. nra.
Qed.

Lemma shell_round_trip_witness :
  exists t, calculateShellMinimumThickness 150 24 20000 0.85 = Fin t /\
            calculateShellMAWP t 24 20000 0.85 == 150.
Proof.
  apply (shell_round_trip 150 24 20000 0.85); reflexivity.
Defined.

(** C6, as stated, fails at zero pressure: the minimum thickness is 0 for
    every radius, so it does not grow with the radius. *)
Lemma shell_thickness_flat_at_zero_pressure :
  0.6 * 0 < 20000 * 0.85 /\ 24 < 48 /\
  (calculateShellMinimumThickness 0 24 20000 0.85
   <? calculateShellMinimumThickness 0 48 20000 0.85)%num = false.
Proof. repeat split. Qed.

(** C6, amended: with S*E > 0.6*P for the arguments compared (a finite
    result), the shell minimum thickness is strictly increasing in P when
    R*S*E > 0 (from any P on, P = 0 included), strictly increasing in R
    when P > 0, strictly decreasing in S when P*R*E > 0 and strictly
    decreasing in E when P*R*S > 0, the other arguments fixed.  All four
    hold for positive P, R, S and E. *)
Theorem shell_thickness_monotone :
  (forall P P' R S E,
     0 < R * (S * E) -> P < P' -> 0.6 * P' < S * E ->
     (calculateShellMinimumThickness P R S E
      <? calculateShellMinimumThickness P' R S E)%num = true) /\
  (forall P R R' S E,
     0 < P -> 0.6 * P < S * E -> R < R' ->
     (calculateShellMinimumThickness P R S E
      <? calculateShellMinimumThickness P R' S E)%num = true) /\
  (forall P R S S' E,
     0 < P * R * E -> 0.6 * P < S * E -> 0.6 * P < S' * E -> S < S' ->
     (calculateShellMinimumThickness P R S' E
      <? calculateShellMinimumThickness P R S E)%num = true) /\
  (forall P R S E E',
     0 < P * R * S -> 0.6 * P < S * E -> 0.6 * P < S * E' -> E < E' ->
     (calculateShellMinimumThickness P R S E'
      <? calculateShellMinimumThickness P R S E)%num = true).
Proof.
  repeat match goal with |- _ /\ _ => split end.
  - intros P P' R S E Hsign Hlt Hd'.
    rewrite !shell_minimum_thickness_finite by lra. simpl.
    q_reflect. apply Qdiv_lt_cross; try lra.
    assert (0 < (P' - P) * (R * (S * E)))
      by (apply Qmult_lt_0_compat; lra).
    lra.
  - intros P R R' S E HP Hd Hlt.
    rewrite !shell_minimum_thickness_finite by assumption. simpl.
    q_reflect. apply Qdiv_lt_cross; try lra.
    assert (0 < (R' - R) * (P * (S * E - 0.6 * P)))
      by (apply Qmult_lt_0_compat; [lra | nra]).
    lra.
  - intros P R S S' E Hsign Hd Hd' Hlt.
    rewrite !shell_minimum_thickness_finite by assumption. simpl.
    q_reflect. apply Qdiv_lt_cross; try lra.
    assert (0 < (P * R * E) * (S' - S))
      by (apply Qmult_lt_0_compat; lra).
    lra.
  - intros P R S E E' Hsign Hd Hd' Hlt.
    rewrite !shell_minimum_thickness_finite by assumption. simpl.
    q_reflect. apply Qdiv_lt_cross; try lra.
    assert (0 < (P * R * S) * (E' - E))
      by (apply Qmult_lt_0_compat; lra).
    lra.
Qed.

Lemma shell_thickness_monotone_witness :
  (calculateShellMinimumThickness 0 24 20000 0.85
   <? calculateShellMinimumThickness 150 24 20000 0.85)%num = true /\
  (calculateShellMinimumThickness 150 24 20000 0.85
   <? calculateShellMinimumThickness 150 48 20000 0.85)%num = true /\
  (calculateShellMinimumThickness 150 24 25000 0.85
   <? calculateShellMinimumThickness 150 24 20000 0.85)%num = true /\
  (calculateShellMinimumThickness 150 24 20000 1
   <? calculateShellMinimumThickness 150 24 20000 0.85)%num = true.
Proof.
  destruct shell_thickness_monotone as (H1 & H2 & H3 & H4).
  split; [apply H1; reflexivity|].
  split; [apply H2; reflexivity|].
  split; [apply H3; reflexivity | apply H4; reflexivity].
Defined.

(** C7, as stated, fails at zero pressure: both thicknesses are 0. *)
Lemma hemispherical_equals_shell_at_zero_pressure :
  (calculateHemisphericalHeadMinimumThickness 0 24 20000 0.85
   <? calculateShellMinimumThickness 0 24 20000 0.85)%num = false.
Proof. reflexivity. Qed.

(** C7, amended: for identical P, R, S, E with P > 0, R > 0 and a finite
    hemispherical result (2*S*E > 0.2*P), the hemispherical head minimum
    thickness is strictly less than the shell minimum thickness (which may
    be infinite). *)
Theorem hemispherical_thinner_than_shell (P R S E : Q) :
  0 < P -> 0 < R -> 0.2 * P < 2 * S * E ->
  (calculateHemisphericalHeadMinimumThickness P R S E
   <? calculateShellMinimumThickness P R S E)%num = true.
Proof.
  intros HP HR Hd.
  rewrite hemispherical_minimum_thickness_finite by assumption.
  unfold calculateShellMinimumThickness.
  q_case; [reflexivity|]. simpl.
  q_reflect. apply Qdiv_lt_cross; try lra.
  assert (0 < (P * R) * (S * E + 0.4 * P))
    by (apply Qmult_lt_0_compat; nra).
  lra.
Qed.

Lemma hemispherical_thinner_than_shell_witness :
  (calculateHemisphericalHeadMinimumThickness 150 24 20000 0.85
   <? calculateShellMinimumThickness 150 24 20000 0.85)%num = true.
Proof.
  apply (hemispherical_thinner_than_shell 150 24 20000 0.85); reflexivity.
Defined.

(** ** Degenerate inputs of the formula library *)

Section Degeneracy.

Variable sqrt_fin : Q -> Q.

(** The stress intensification factor of a torispherical head is a finite
    number or NaN, never an infinity: the knuckle radius vanishes only
    together with the crown radius. *)
Lemma torispherical_factor_not_infinite (crownRadius : Q)
    (knuckleRadius : option Q) :
  let r := or_num knuckleRadius (crownRadius * 0.06) in
  let M := (Fin 0.25 * (Fin 3 + Math_sqrt sqrt_fin (Fin crownRadius / Fin r)))%num in
  M = NaN \/ exists m, M = Fin m.
Proof.
  simpl.
  assert (Hr : forall r, (Qeq_bool r 0 = true -> crownRadius == 0) ->
     let M := (Fin 0.25 * (Fin 3 + Math_sqrt sqrt_fin (Fin crownRadius / Fin r)))%num in
     M = NaN \/ exists m, M = Fin m).
  { intros r Hz. simpl.
    destruct (Qeq_bool r 0) eqn:Er.
    - specialize (Hz eq_refl). apply Qeq_bool_iff in Hz. rewrite Hz.
      left; reflexivity.
    - simpl. destruct (Qltb (crownRadius / r) 0); simpl;
        [left; reflexivity | right; eexists; reflexivity]. }
  apply Hr. unfold or_num.
  destruct knuckleRadius as [k|].
  - destruct (Qeq_bool k 0) eqn:Ek; [|congruence].
    intro H. q_reflect. lra.
  - intro H. q_reflect. lra.
Qed.

Lemma torispherical_infinite_iff (P L S E : Q) (k : option Q) :
  calculateTorisphericalHeadMinimumThickness sqrt_fin P L S E k = PInf
  <-> 2 * S * E - 0.2 * P <= 0.
Proof.
  unfold calculateTorisphericalHeadMinimumThickness.
  destruct (torispherical_factor_not_infinite L k) as [HM | [m HM]];
    cbv zeta in HM; rewrite HM; clear HM.
  - q_case; split; intro H; try reflexivity; try assumption;
      simpl in H; try discriminate; lra.
  - q_case; split; intro H; try reflexivity; try assumption; try lra.
    simpl in H.
    destruct (Qeq_bool (2 * S * E - 0.2 * P) 0) eqn:Ez; q_reflect;
      [lra | discriminate].
Qed.

(** C5: each minimum-thickness function returns positive infinity exactly
    when its denominator (S*E - 0.6*P for the shell, 2*S*E - 0.2*P for
    the heads) is <= 0; each MAWP function returns 0 for a non-positive
    denominator and for zero thickness; in particular the shell minimum
    thickness is infinite whenever S*E <= 0.6*P and is 0 at zero pressure
    when S*E > 0. *)
Theorem degenerate_inputs_saturate (P R S E t : Q) (knuckle : option Q) :
  (calculateShellMinimumThickness P R S E = PInf
     <-> S * E - 0.6 * P <= 0) /\
  (calculateEllipsoidalHeadMinimumThickness P R S E = PInf
     <-> 2 * S * E - 0.2 * P <= 0) /\
  (calculateTorisphericalHeadMinimumThickness sqrt_fin P R S E knuckle = PInf
     <-> 2 * S * E - 0.2 * P <= 0) /\
  (calculateHemisphericalHeadMinimumThickness P R S E = PInf
     <-> 2 * S * E - 0.2 * P <= 0) /\
  (R + 0.6 * t <= 0 -> calculateShellMAWP t R S E = 0) /\
  (R + 0.2 * t <= 0 -> calculateEllipsoidalHeadMAWP t R S E = 0) /\
  (R + 0.2 * t <= 0 -> calculateHemisphericalHeadMAWP t R S E = 0) /\
  calculateShellMAWP 0 R S E == 0 /\
  calculateEllipsoidalHeadMAWP 0 R S E == 0 /\
  calculateHemisphericalHeadMAWP 0 R S E == 0 /\
  (S * E <= 0.6 * P -> calculateShellMinimumThickness P R S E = PInf) /\
  (0 < S * E -> calculateShellMinimumThickness 0 R S E =n= Fin 0).
Proof.
  repeat match goal with |- _ /\ _ => split end.
  3: apply torispherical_infinite_iff.
  all: unfold calculateShellMinimumThickness,
         calculateEllipsoidalHeadMinimumThickness,
         calculateHemisphericalHeadMinimumThickness,
         calculateShellMAWP, calculateEllipsoidalHeadMAWP,
         calculateHemisphericalHeadMAWP.
  all: try (q_case; split; intro; try reflexivity; try assumption;
            try discriminate; lra).
  all: try (intros; q_case; try reflexivity; try lra).
  all: try (field; lra).
Qed.

End Degeneracy.

Lemma degenerate_inputs_saturate_witness :
  calculateShellMAWP (-50) 24 20000 0.85 = 0 /\
  calculateEllipsoidalHeadMAWP (-300) 48 20000 0.85 = 0 /\
  calculateHemisphericalHeadMAWP (-200) 24 20000 0.85 = 0 /\
  calculateShellMinimumThickness 35000 24 20000 0.85 = PInf /\
  calculateShellMinimumThickness 0 24 20000 0.85 =n= Fin 0.
Proof.
  pose proof (degenerate_inputs_saturate (fun q => q) 35000 24 20000 0.85 (-50) None)
    as (_ & _ & _ & _ & H1 & _ & _ & _ & _ & _ & H4 & H5).
  pose proof (degenerate_inputs_saturate (fun q => q) 35000 48 20000 0.85 (-300) None)
    as (_ & _ & _ & _ & _ & H2 & _).
  pose proof (degenerate_inputs_saturate (fun q => q) 35000 24 20000 0.85 (-200) None)
    as (_ & _ & _ & _ & _ & _ & H3 & _).
  split; [apply H1; vm_compute; discriminate|].
  split; [apply H2; vm_compute; discriminate|].
  split; [apply H3; vm_compute; discriminate|].
  split; [apply H4; vm_compute; discriminate | apply H5; reflexivity].
Defined.

(** ** The component pipeline *)

Lemma or_num_absent (x : option Q) (d : Q) :
  absent_or_zero x -> or_num x d = d.
Proof.
  destruct x as [q|]; simpl; [|reflexivity].
  intro H. apply Qeq_bool_iff in H. now rewrite H.
Qed.

Lemma or_opt_absent (x y : option Q) :
  absent_or_zero x -> or_opt x y = y.
Proof.
  destruct x as [q|]; unfold or_opt; simpl; [|reflexivity].
  intro H. apply Qeq_bool_iff in H. now rewrite H.
Qed.

Lemma or_num_nonzero (x : option Q) (d : Q) :
  ~ d == 0 -> ~ or_num x d == 0.
Proof.
  intro Hd. destruct x as [q|]; simpl; [|assumption].
  q_case; assumption.
Qed.

Lemma or_num_nonpos (x : option Q) (d : Q) :
  or_num x d <= 0 <->
  (exists q, x = Some q /\ q < 0) \/ (absent_or_zero x /\ d <= 0).
Proof.
  destruct x as [q|]; simpl.
  - q_case; split.
    + intro H. right. split; assumption.
    + intros [(q' & Hq & Hneg) | [_ H]]; [|assumption].
      injection Hq as <-. lra.
    + intro H. left. exists q. split; [reflexivity | lra].
    + intros [(q' & Hq & Hneg) | [H _]]; [|contradiction].
      injection Hq as <-. lra.
  - split.
    + intro H. right. split; [exact I | assumption].
    + intros [(q' & Hq & _) | [_ H]]; [discriminate | assumption].
Qed.

Section Pipeline.

Variable sqrt_fin : Q -> Q.

(** C8: in [performComponentCalculations] the rate used for the remaining
    life (and reported, rounded, as the governing rate) equals
    max(corrosionRateLT, corrosionRateST); when the two rates are equal the
    tag is 'LT'; and the tag names the rate that was selected. *)
Theorem governing_rate_is_max (input : CalculationInput) :
  let lt := pcc_corrosionRateLT input in
  let st := pcc_corrosionRateST input in
  let result := performComponentCalculations sqrt_fin input in
  exists rate,
    rate == Qmax lt st /\
    remainingLife result
    = nround_to 10 (calculateRemainingLife (actualThickness input)
                      (pcc_minimumThickness sqrt_fin input) rate) /\
    corrosionRate result = round_to 10000 rate /\
    (lt == st -> governingRate result = LT) /\
    (governingRate result = LT /\ rate = lt /\ st <= lt \/
     governingRate result = ST /\ rate = st /\ lt < st).
Proof.
  intros lt st result.
  unfold result, performComponentCalculations, selectGoverningRate.
  fold lt st.
  destruct (Qle_bool st lt) eqn:Hle; q_reflect; simpl.
  - exists lt. split; [symmetry; now apply Q.max_l|].
    repeat split; auto.
  - exists st. split; [symmetry; apply Q.max_r; lra|].
    repeat split; auto. intro Heq. lra.
Qed.

End Pipeline.

Lemma governing_rate_is_max_witness :
  governingRate
    (performComponentCalculations (fun q => q) (Samples.shell_input (Some 5)))
  = LT.
Proof.
  destruct (governing_rate_is_max (fun q => q) (Samples.shell_input (Some 5)))
    as (rate & _ & _ & _ & Htie & _).
  apply Htie. vm_compute. reflexivity.
Defined.

(** C10, as stated, fails: a negative explicit span is truthy, is kept,
    and drives both analyzers into their span <= 0 branch. *)
Lemma negative_span_reaches_floor_branch :
  pcc_timeSpan (Samples.shell_input (Some (-5))) <= 0 /\
  pcc_totalTimeSpan (Samples.shell_input (Some (-5))) <= 0 /\
  Qle_bool (pcc_timeSpan (Samples.shell_input (Some (-5)))) 0 = true /\
  Qle_bool (pcc_totalTimeSpan (Samples.shell_input (Some (-5)))) 0 = true /\
  pcc_corrosionRateST (Samples.shell_input (Some (-5))) = MIN_NOMINAL_RATE.
Proof.
  repeat split; vm_compute; discriminate.
Qed.

(** C10, amended: [performComponentCalculations] treats a zero in an
    optional numeric input as absent: a missing or zero timeSpan becomes
    10, a missing or zero totalTimeSpan becomes the short-term span, a
    missing or zero previousThickness falls back to nominalThickness and
    then to actualThickness, a missing or zero initialThickness to
    nominalThickness and then to the resolved previous thickness.
    Consequently the resolved spans are never zero, and they are <= 0
    (the analyzers' span branch) exactly when a negative span was given. *)
Theorem zero_inputs_treated_as_absent (input : CalculationInput) :
  (absent_or_zero (timeSpan input) -> pcc_timeSpan input = 10) /\
  (absent_or_zero (totalTimeSpan input) ->
     pcc_totalTimeSpan input = pcc_timeSpan input) /\
  (absent_or_zero (previousThickness input) ->
     pcc_previousThickness input
     = or_num (nominalThickness input) (actualThickness input)) /\
  (absent_or_zero (initialThickness input) ->
     pcc_initialThickness input
     = or_num (nominalThickness input) (pcc_previousThickness input)) /\
  (absent_or_zero (nominalThickness input) ->
     forall d, or_num (nominalThickness input) d = d) /\
  ~ pcc_timeSpan input == 0 /\
  ~ pcc_totalTimeSpan input == 0 /\
  (pcc_timeSpan input <= 0 <->
     exists q, timeSpan input = Some q /\ q < 0) /\
  (pcc_totalTimeSpan input <= 0 <->
     (exists q, totalTimeSpan input = Some q /\ q < 0) \/
     (absent_or_zero (totalTimeSpan input) /\
      exists q, timeSpan input = Some q /\ q < 0)).
Proof.
  assert (Hts : pcc_timeSpan input <= 0 <->
                exists q, timeSpan input = Some q /\ q < 0).
  { unfold pcc_timeSpan. rewrite or_num_nonpos. split.
    - intros [H | [_ H]]; [assumption | lra].
    - intro H. now left. }
  unfold pcc_totalTimeSpan, pcc_previousThickness, pcc_initialThickness.
  repeat match goal with |- _ /\ _ => split end.
  - intro H. unfold pcc_timeSpan. now apply or_num_absent.
  - intro H. now apply or_num_absent.
  - intro H. now rewrite or_opt_absent.
  - intro H. now rewrite or_opt_absent.
  - intros H d. now apply or_num_absent.
  - unfold pcc_timeSpan. apply or_num_nonzero. lra.
  - apply or_num_nonzero. unfold pcc_timeSpan. apply or_num_nonzero. lra.
  - exact Hts.
  - rewrite or_num_nonpos, Hts. reflexivity.
Qed.

Lemma zero_inputs_treated_as_absent_witness :
  pcc_timeSpan Samples.zeroed_input = 10 /\
  pcc_totalTimeSpan Samples.zeroed_input = pcc_timeSpan Samples.zeroed_input /\
  pcc_previousThickness Samples.zeroed_input = 0.375 /\
  pcc_initialThickness Samples.zeroed_input = 0.375.
Proof.
  destruct (zero_inputs_treated_as_absent Samples.zeroed_input)
    as (H1 & H2 & H3 & H4 & H5 & _).
  split; [apply H1; reflexivity|].
  split; [apply H2; reflexivity|].
  split.
  - rewrite H3 by reflexivity. apply H5. reflexivity.
  - rewrite H4 by reflexivity. rewrite H5 by reflexivity.
    rewrite H3 by reflexivity. apply H5. reflexivity.
Defined.

(** ** The stress interpolator *)

Section OrderBy.

Variable leb : Z -> Z -> bool.
Hypothesis leb_total : forall a b, leb a b = false -> leb b a = true.
Hypothesis leb_trans :
  forall a b c, leb a b = true -> leb b c = true -> leb a c = true.
Hypothesis leb_refl : forall a, leb a a = true.

Lemma insert_by_head (x : Db.MaterialStressValue)
    (l : list Db.MaterialStressValue) :
  exists h rest, Db.insert_by leb x l = h :: rest /\
    (h = x \/ exists rest', l = h :: rest' /\
                            leb (Db.temperature x) (Db.temperature h) = false).
Proof.
  destruct l as [|y l']; simpl.
  - exists x, []. split; [reflexivity | now left].
  - destruct (leb (Db.temperature x) (Db.temperature y)) eqn:E.
    + exists x, (y :: l'). split; [reflexivity | now left].
    + exists y, (Db.insert_by leb x l'). split; [reflexivity|].
      right. exists l'. split; [reflexivity | exact E].
Qed.

(** The first row of the sorted list is a row of the list that comes
    first in the order. *)
Lemma order_by_head (l : list Db.MaterialStressValue) :
  match Db.order_by leb l with
  | [] => l = []
  | h :: _ =>
      In h l /\
      forall row, In row l ->
                  leb (Db.temperature h) (Db.temperature row) = true
  end.
Proof.
  induction l as [|x l IH]; simpl; [reflexivity|].
  destruct (insert_by_head x (Db.order_by leb l))
    as (h & rest & Heq & Hh).
  rewrite Heq.
  destruct Hh as [-> | (rest' & Hsorted & Hlt)].
  - split; [now left|].
    intros row [<- | Hin]; [apply leb_refl|].
    destruct (Db.order_by leb l) as [|y l'] eqn:Es.
    + subst l. contradiction.
    + destruct IH as [_ IH]. simpl in Heq.
      destruct (leb (Db.temperature x) (Db.temperature y)) eqn:E.
      * apply leb_trans with (Db.temperature y); [exact E | now apply IH].
      * injection Heq as Hx _. subst y. now rewrite leb_refl in E.
  - rewrite Hsorted in IH. destruct IH as [Hin IH].
    split; [now right|].
    intros row [<- | Hrow]; [now apply leb_total | now apply IH].
Qed.

End OrderBy.

Lemma limit_one (l : list Db.MaterialStressValue) :
  Db.limit 1 l = match l with [] => [] | h :: _ => [h] end.
Proof. destruct l; reflexivity. Qed.

Lemma asc_head (l : list Db.MaterialStressValue) :
  match Db.limit 1 (Db.order_by Db.asc l) with
  | [] => l = []
  | h :: _ => In h l /\
              forall row, In row l -> (Db.temperature h <= Db.temperature row)%Z
  end.
Proof.
  rewrite limit_one.
  pose proof (order_by_head Db.asc) as H. unfold Db.asc in *.
  specialize (H ltac:(intros; lia) ltac:(intros; lia) ltac:(intros; lia) l).
  destruct (Db.order_by Z.leb l); [assumption|].
  destruct H as [Hin H]. split; [assumption|].
  intros row Hrow. specialize (H row Hrow). lia.
Qed.

Lemma desc_head (l : list Db.MaterialStressValue) :
  match Db.limit 1 (Db.order_by Db.desc l) with
  | [] => l = []
  | h :: _ => In h l /\
              forall row, In row l -> (Db.temperature row <= Db.temperature h)%Z
  end.
Proof.
  rewrite limit_one.
  pose proof (order_by_head Db.desc) as H. unfold Db.desc in *.
  assert (Hg : forall a b, Z.geb a b = Z.leb b a) by (intros; apply Z.geb_leb).
  specialize (H ltac:(intros a b; rewrite !Hg; lia)
                ltac:(intros a b c; rewrite !Hg; lia)
                ltac:(intros a; rewrite Hg; lia) l).
  destruct (Db.order_by Z.geb l); [assumption|].
  destruct H as [Hin H]. split; [assumption|].
  intros row Hrow. specialize (H row Hrow). rewrite Hg in H. lia.
Qed.

Lemma in_lower_rows (table : list Db.MaterialStressValue) (spec : string)
    (target : Q) (row : Db.MaterialStressValue) :
  In row (filter (fun row => String.eqb (Db.materialSpec row) spec
                             && Qle_bool (inject_Z (Db.temperature row)) target)
                 table)
  <-> Db.tabulated table spec row /\ inject_Z (Db.temperature row) <= target.
Proof.
  rewrite filter_In, andb_true_iff, String.eqb_eq, Qle_bool_iff.
  unfold Db.tabulated. tauto.
Qed.

Lemma in_upper_rows (table : list Db.MaterialStressValue) (spec : string)
    (target : Q) (row : Db.MaterialStressValue) :
  In row (filter (fun row => String.eqb (Db.materialSpec row) spec
                             && Qle_bool target (inject_Z (Db.temperature row)))
                 table)
  <-> Db.tabulated table spec row /\ target <= inject_Z (Db.temperature row).
Proof.
  rewrite filter_In, andb_true_iff, String.eqb_eq, Qle_bool_iff.
  unfold Db.tabulated. tauto.
Qed.

(** Rounding a number that lies between two integers stays between them. *)
Lemma round_half_up_between (lo hi : Z) (x : Q) :
  inject_Z lo <= x -> x <= inject_Z hi ->
  (lo <= Qround_half_up x <= hi)%Z.
Proof.
  intros Hlo Hhi. unfold Qround_half_up. split.
  - rewrite <- (Qfloor_Z lo). apply Qfloor_resp_le. lra.
  - pose proof (Qfloor_le (x + 0.5)) as Hf.
    assert (H : (Qfloor (x + 0.5) < hi + 1)%Z).
    { rewrite Zlt_Qlt, inject_Z_plus. change (inject_Z 1) with 1. lra. }
    lia.
Qed.

Lemma lower_rows_bound (table : list Db.MaterialStressValue) (spec : string)
    (target : Q) :
  match Db.limit 1 (Db.order_by Db.desc
          (filter (fun row => String.eqb (Db.materialSpec row) spec
                              && Qle_bool (inject_Z (Db.temperature row)) target)
                  table)) with
  | [] => Db.no_lower table spec target
  | l :: _ => Db.lower_bound table spec target l
  end.
Proof.
  pose proof (desc_head
    (filter (fun row => String.eqb (Db.materialSpec row) spec
                        && Qle_bool (inject_Z (Db.temperature row)) target)
            table)) as H.
  destruct (Db.limit 1 _) as [|l rest].
  - intros row Htab Hle.
    assert (Hin : In row []) by (rewrite <- H; apply in_lower_rows; auto).
    contradiction.
  - destruct H as [Hin Hmax]. apply in_lower_rows in Hin as [Htab Hle].
    repeat split; try assumption; try apply Htab.
    intros row' Htab' Hle'. apply Hmax. apply in_lower_rows. auto.
Qed.

Lemma upper_rows_bound (table : list Db.MaterialStressValue) (spec : string)
    (target : Q) :
  match Db.limit 1 (Db.order_by Db.asc
          (filter (fun row => String.eqb (Db.materialSpec row) spec
                              && Qle_bool target (inject_Z (Db.temperature row)))
                  table)) with
  | [] => Db.no_upper table spec target
  | u :: _ => Db.upper_bound table spec target u
  end.
Proof.
  pose proof (asc_head
    (filter (fun row => String.eqb (Db.materialSpec row) spec
                        && Qle_bool target (inject_Z (Db.temperature row)))
            table)) as H.
  destruct (Db.limit 1 _) as [|u rest].
  - intros row Htab Hle.
    assert (Hin : In row []) by (rewrite <- H; apply in_upper_rows; auto).
    contradiction.
  - destruct H as [Hin Hmin]. apply in_upper_rows in Hin as [Htab Hle].
    repeat split; try assumption; try apply Htab.
    intros row' Htab' Hle'. apply Hmin. apply in_upper_rows. auto.
Qed.





(** Where no interpolation takes place the lookup in double precision
    gives the result of the lookup on the exact target. *)
Lemma double_lookup_without_interpolation
    (table : list Db.MaterialStressValue) (spec : string)
    (temperature : PrimFloat.float) (target : Q) :
  DbDouble.float_value temperature = Fin target ->
  match DbDouble.lowerResult table spec (Fin target),
        DbDouble.upperResult table spec (Fin target) with
  | l :: _, u :: _ => Db.temperature l = Db.temperature u
  | _, _ => True
  end ->
  DbDouble.getMaterialStressValue (Some table) spec temperature
  = option_map (fun stress => Fin (inject_Z stress))
      (Db.getMaterialStressValue (Some table) spec target).
Proof.
  intros Hvalue.
  unfold DbDouble.getMaterialStressValue, Db.getMaterialStressValue,
    DbDouble.lowerResult, DbDouble.upperResult.
  rewrite Hvalue. cbn [nleb].
  destruct (Db.limit 1 (Db.order_by Db.desc _)) as [|l restl];
    destruct (Db.limit 1 (Db.order_by Db.asc _)) as [|u restu];
    try reflexivity.
  intro He. rewrite He, Z.eqb_refl. reflexivity.
Qed.

(** The interpolation in double precision on two runs: 0.7 * 45 is
    31.499999999999996 and rounds to 31; at the double nearest to 500.1
    the interpolation between 17100 and 14600 is 17097.5 and rounds to
    17098. *)
Lemma double_interpolation_runs :
  DbDouble.getMaterialStressValue (Some DoubleSamples.steep_table) "M"
    (DbDouble.of_int 7) = Some (Fin (inject_Z 31)) /\
  DbDouble.getMaterialStressValue (Some DoubleSamples.hot_table) "M"
    DoubleSamples.temperature_500_1 = Some (Fin (inject_Z 17098)).
Proof. split; vm_compute; reflexivity. Qed.

(** ** The reading reduction *)

Lemma nleb_refl (a : num) : a <> NaN -> (a <=? a)%num = true.
Proof.
  destruct a; simpl; intro H; try reflexivity; try congruence.
  q_reflect. lra.
Qed.

Lemma nleb_total (a b : num) :
  a <> NaN -> b <> NaN -> (a <=? b)%num = false -> (b <=? a)%num = true.
Proof.
  destruct a, b; simpl; intros Ha Hb H; try reflexivity; try congruence.
  q_reflect. lra.
Qed.

Lemma nleb_trans (a b c : num) :
  (a <=? b)%num = true -> (b <=? c)%num = true -> (a <=? c)%num = true.
Proof.
  destruct a, b, c; simpl; intros H1 H2; try reflexivity; try congruence.
  q_reflect. lra.
Qed.

Lemma positive_not_NaN (t : num) : (Fin 0 <? t)%num = true -> t <> NaN.
Proof. destruct t; simpl; congruence. Qed.

Lemma nmin_not_NaN (a b : num) :
  a <> NaN -> b <> NaN -> nmin a b = if (a <=? b)%num then a else b.
Proof. destruct a, b; simpl; congruence. Qed.

(** [Math.min] over numbers that passed the filter [t > 0]: an element of
    the list, at or below every element. *)
Lemma Math_min_least (ts : list num) :
  (forall t, In t ts -> (Fin 0 <? t)%num = true) -> ts <> [] ->
  In (Math_min ts) ts /\
  forall t, In t ts -> (Math_min ts <=? t)%num = true.
Proof.
  induction ts as [|a ts IH]; intros Hpos Hne; [congruence|].
  assert (Ha : a <> NaN) by (apply positive_not_NaN, Hpos; now left).
  destruct ts as [|b ts'].
  - simpl. rewrite nmin_not_NaN by congruence.
    replace (a <=? PInf)%num with true by (destruct a; simpl; congruence).
    split; [now left|].
    intros t [<- | []]. now apply nleb_refl.
  - destruct IH as [Hin Hle]; [intros; apply Hpos; now right | congruence |].
    change (Math_min (a :: b :: ts')) with (nmin a (Math_min (b :: ts'))).
    set (m := Math_min (b :: ts')) in *.
    assert (Hm : m <> NaN) by (apply positive_not_NaN, Hpos; now right).
    rewrite nmin_not_NaN by assumption.
    destruct (a <=? m)%num eqn:E.
    + split; [now left|].
      intros t [<- | Ht]; [now apply nleb_refl|].
      apply nleb_trans with m; [exact E | now apply Hle].
    + split; [now right|].
      intros t [<- | Ht]; [now apply nleb_total | now apply Hle].
Qed.

Lemma filter_positive (ts : list num) (t : num) :
  In t (filter (fun t => (Fin 0 <? t)%num) ts) -> (Fin 0 <? t)%num = true.
Proof. intro H. apply filter_In in H. apply H. Qed.

Lemma length_pos_false {A : Type} (l : list A) :
  (0 <? List.length l)%nat = false -> l = [].
Proof. destruct l; simpl; [reflexivity | discriminate]. Qed.

Lemma length_pos_true {A : Type} (l : list A) :
  (0 <? List.length l)%nat = true -> l <> [].
Proof. destruct l; simpl; [discriminate | congruence]. Qed.

(** With no reading, both thicknesses are the nominal thickness of the
    vessel (0.5 when the inspection records none). *)
Lemma worst_case_no_reading (nominal : option string) :
  Router.worstCaseThicknesses nominal []
  = (Router.parseFloat (Router.str_or nominal "0.5"),
     Router.parseFloat (Router.str_or nominal "0.5")).
Proof. reflexivity. Qed.

(** The previous thickness is the least positive previous value of the
    readings, when one exists, and the nominal thickness otherwise. *)
Lemma worst_case_previous (nominal : option string)
    (readings : list Router.TmlReading) :
  let prevs :=
    filter (fun t => (Fin 0 <? t)%num)
      (map (fun r => Router.parseFloat
                       (Router.str_or (Router.previousThickness r) "0"))
           readings) in
  let previous := snd (Router.worstCaseThicknesses nominal readings) in
  (prevs = [] /\
   previous = Router.parseFloat (Router.str_or nominal "0.5")) \/
  (In previous prevs /\
   forall t, In t prevs -> (previous <=? t)%num = true).
Proof.
  intros prevs previous. unfold previous, Router.worstCaseThicknesses.
  destruct (0 <? List.length readings)%nat eqn:En.
  - cbv zeta. fold prevs. simpl snd.
    destruct (0 <? List.length prevs)%nat eqn:Ep.
    + right. apply Math_min_least; [apply filter_positive|].
      now apply length_pos_true.
    + left. split; [now apply length_pos_false | reflexivity].
  - left. apply length_pos_false in En. subst readings.
    split; reflexivity.
Qed.

(** The actual thickness is the least positive value among the readings'
    recorded actual thickness, or first angle where none is recorded; the
    nominal thickness when there is no such value. *)
Lemma worst_case_actual (nominal : option string)
    (readings : list Router.TmlReading) :
  let thicknesses :=
    filter (fun t => (Fin 0 <? t)%num)
      (map (fun r => Router.parseFloat
                       (Router.str_or
                          (Router.str_or_opt (Router.actualThickness r)
                                             (Router.tml1 r)) "0"))
           readings) in
  let actual := fst (Router.worstCaseThicknesses nominal readings) in
  (thicknesses = [] /\
   actual = Router.parseFloat (Router.str_or nominal "0.5")) \/
  (In actual thicknesses /\
   forall t, In t thicknesses -> (actual <=? t)%num = true).
Proof.
  intros thicknesses actual. unfold actual, Router.worstCaseThicknesses.
  destruct (0 <? List.length readings)%nat eqn:En.
  - cbv zeta. fold thicknesses. simpl fst.
    destruct (0 <? List.length thicknesses)%nat eqn:Ep.
    + right. apply Math_min_least; [apply filter_positive|].
      now apply length_pos_true.
    + left. split; [now apply length_pos_false | reflexivity].
  - left. apply length_pos_false in En. subst readings.
    split; reflexivity.
Qed.

(** The second, third and fourth angle of a reading have no influence on
    the reduction. *)
Lemma other_angles_not_read (nominal : option string)
    (angles : Router.TmlReading -> option string * option string * option string)
    (readings : list Router.TmlReading) :
  Router.worstCaseThicknesses nominal
    (map (fun r => Router.with_other_angles (angles r) r) readings)
  = Router.worstCaseThicknesses nominal readings.
Proof.
  unfold Router.worstCaseThicknesses.
  rewrite length_map, !map_map.
  assert (Hact : forall r,
    Router.parseFloat
      (Router.str_or
         (Router.str_or_opt
            (Router.actualThickness (Router.with_other_angles (angles r) r))
            (Router.tml1 (Router.with_other_angles (angles r) r))) "0")
    = Router.parseFloat
        (Router.str_or
           (Router.str_or_opt (Router.actualThickness r) (Router.tml1 r)) "0")).
  { intro r. unfold Router.with_other_angles.
    destruct (angles r) as [[a2 a3] a4]. reflexivity. }
  assert (Hprev : forall r,
    Router.parseFloat
      (Router.str_or
         (Router.previousThickness (Router.with_other_angles (angles r) r)) "0")
    = Router.parseFloat (Router.str_or (Router.previousThickness r) "0")).
  { intro r. unfold Router.with_other_angles.
    destruct (angles r) as [[a2 a3] a4]. reflexivity. }
  rewrite (map_ext _ _ Hact), (map_ext _ _ Hprev). reflexivity.
Qed.

(** C3 at a reading with four angles and no recorded actual thickness:
    the pipeline takes the first angle (0.500) as the worst-case actual
    thickness, where the minimum across the four angles is 0.300. *)
Theorem recalculate_reads_first_angle_only :
  fst (Router.recalculate_thicknesses (Some "0.625"%string)
         [Samples.four_angle_reading] "shell")
  =n= Fin 0.5 /\
  Router.min_over_angles [Samples.four_angle_reading] =n= Fin 0.3 /\
  snd (Router.recalculate_thicknesses (Some "0.625"%string)
         [Samples.four_angle_reading] "shell")
  =n= Fin 0.52.
Proof. repeat split. Qed.

(** ** Grouping *)

Lemma push_group_lookup (groups : Router.Groups) (key type : string)
    (reading : Router.TmlReading) :
  match Router.lookup_group (Router.push_group groups key reading) type with
  | Some readings => readings
  | None => []
  end
  = match Router.lookup_group groups type with
    | Some readings => readings
    | None => []
    end ++ (if String.eqb key type then [reading] else []).
Proof.
  induction groups as [|[k rs] rest IH]; simpl.
  - destruct (String.eqb key type); reflexivity.
  - destruct (String.eqb_spec k key) as [-> | Hk]; simpl.
    + destruct (String.eqb key type); [reflexivity | now rewrite app_nil_r].
    + destruct (String.eqb_spec k type) as [-> | Ht]; [|exact IH].
      destruct (String.eqb_spec key type) as [-> | _];
        [congruence | now rewrite app_nil_r].
Qed.

Lemma fold_groups_lookup (tmlReadings : list Router.TmlReading)
    (groups : Router.Groups) (type : string) :
  match Router.lookup_group
          (fold_left
             (fun groups reading =>
                Router.push_group groups
                  (Router.str_or (Router.componentType reading) "shell")
                  reading)
             tmlReadings groups) type with
  | Some readings => readings
  | None => []
  end
  = match Router.lookup_group groups type with
    | Some readings => readings
    | None => []
    end
    ++ filter (fun r => String.eqb
                          (Router.str_or (Router.componentType r) "shell") type)
              tmlReadings.
Proof.
  revert groups.
  induction tmlReadings as [|r rs IH]; intro groups; simpl.
  - now rewrite app_nil_r.
  - rewrite IH, push_group_lookup, <- app_assoc.
    destruct (String.eqb _ type); reflexivity.
Qed.

(** The readings handed to the reduction for a component are the readings
    that declare its type (no declared type counts as the shell), in the
    order of the reading set. *)
Lemma recalculate_partition (nominal : option string)
    (tmlReadings : list Router.TmlReading) (type : string) :
  Router.recalculate_thicknesses nominal tmlReadings type
  = Router.worstCaseThicknesses nominal
      (filter (fun r => String.eqb
                          (Router.str_or (Router.componentType r) "shell") type)
              tmlReadings).
Proof.
  unfold Router.recalculate_thicknesses, Router.componentGroups.
  now rewrite fold_groups_lookup.
Qed.

(* ------------------------------------------------------------------ *)
(** * Further properties of the formula library *)

(** ** Next inspection interval *)

Lemma next_interval_in_range (remainingLife : num) :
  remainingLife <> NaN ->
  exists years,
    calculateNextInspectionInterval remainingLife = Fin years /\
    0 <= years <= 10 /\
    (years == 0 <-> (remainingLife <=? Fin 0)%num = true).
Proof.
  intro Hnan. unfold calculateNextInspectionInterval, MAX_INSPECTION_INTERVAL.
  destruct remainingLife as [x| | |]; try congruence; simpl.
  - destruct (Qle_bool x 0) eqn:Hx; q_reflect.
    + exists 0. repeat split; intros; try lra; reflexivity.
    + assert (Hhalf : 0 < x / 2) by (apply Qdiv_pos; lra).
      destruct (Qle_bool (x / 2) 10) eqn:Hc; q_reflect.
      * exists (x / 2). repeat split; try lra; intro H; try lra; discriminate.
      * exists 10. repeat split; try lra; intro H; try lra; discriminate.
  - exists 10. repeat split; try lra; intro H; try lra; discriminate.
  - exists 0. repeat split; intros; try lra; reflexivity.
Qed.

(** The interval of a remaining life that is a number lies between 0 and
    the 10-year ceiling, and is 0 exactly when no life remains. *)
Theorem next_interval_range (remainingLife : num) :
  remainingLife <> NaN ->
  exists years,
    calculateNextInspectionInterval remainingLife = Fin years /\
    0 <= years <= 10 /\
    (years == 0 <-> (remainingLife <=? Fin 0)%num = true).
Proof. exact (next_interval_in_range remainingLife). Qed.

Lemma next_interval_range_witness :
  exists years,
    calculateNextInspectionInterval (Fin 35) = Fin years /\
    0 <= years <= 10 /\
    (years == 0 <-> (Fin 35 <=? Fin 0)%num = true).
Proof.
  apply (next_interval_range (Fin 35)). discriminate.
Defined.

(** For a positive finite remaining life the interval is half of it, up
    to 20 years, and 10 years from there on. *)
Theorem next_interval_half_or_cap (x : Q) :
  0 < x ->
  (x <= 20 -> calculateNextInspectionInterval (Fin x) = Fin (x / 2)) /\
  (20 < x -> calculateNextInspectionInterval (Fin x) = Fin 10).
Proof.
  intro Hx. unfold calculateNextInspectionInterval, MAX_INSPECTION_INTERVAL.
  simpl. destruct (Qle_bool x 0) eqn:H0; q_reflect; [lra|].
  assert (Hh : x / 2 * 2 == x) by (field).
  destruct (Qle_bool (x / 2) 10) eqn:Hc; q_reflect; split; intro H;
    try reflexivity; lra.
Qed.

Lemma next_interval_half_or_cap_witness :
  calculateNextInspectionInterval (Fin 1) = Fin (1 / 2) /\
  calculateNextInspectionInterval (Fin 50) = Fin 10.
Proof.
  split.
  - apply (proj1 (next_interval_half_or_cap 1 ltac:(reflexivity))).
    vm_compute. discriminate.
  - apply (proj2 (next_interval_half_or_cap 50 ltac:(reflexivity))).
    reflexivity.
Defined.

(** ** Remaining life *)

(** Above the minimum thickness, a higher corrosion rate gives a strictly
    shorter remaining life and a thicker wall a strictly longer one. *)
Theorem remaining_life_monotone (t_actual t_min rate : Q) :
  t_min < t_actual -> 0 < rate ->
  (forall rate', rate < rate' ->
     (calculateRemainingLife t_actual (Fin t_min) rate'
      <? calculateRemainingLife t_actual (Fin t_min) rate)%num = true) /\
  (forall t_actual', t_actual < t_actual' ->
     (calculateRemainingLife t_actual (Fin t_min) rate
      <? calculateRemainingLife t_actual' (Fin t_min) rate)%num = true).
Proof.
  intros Hm Hr.
  assert (Hrl : forall t r, t_min < t -> 0 < r ->
            calculateRemainingLife t (Fin t_min) r = Fin ((t - t_min) / r)).
  { intros t r Ht Hr'. unfold calculateRemainingLife; simpl.
    repeat q_case; try reflexivity; lra. }
  split.
  - intros rate' Hlt. rewrite !Hrl by lra. simpl. q_reflect.
    apply Qdiv_lt_cross; try lra.
    assert (0 < (t_actual - t_min) * (rate' - rate))
      by (apply Qmult_lt_0_compat; lra).
    lra.
  - intros t' Hlt. rewrite !Hrl by lra. simpl. q_reflect.
    apply Qdiv_lt_cross; try lra.
    assert (0 < (t' - t_actual) * rate)
      by (apply Qmult_lt_0_compat; lra).
    lra.
Qed.

Lemma remaining_life_monotone_witness :
  (calculateRemainingLife 0.375 (Fin 0.2) 0.010
   <? calculateRemainingLife 0.375 (Fin 0.2) 0.005)%num = true.
Proof.
  apply (proj1 (remaining_life_monotone 0.375 0.2 0.005
                  ltac:(reflexivity) ltac:(reflexivity))).
  reflexivity.
Defined.

(** A minimum thickness of [Infinity] leaves no remaining life, at any
    positive rate. *)
Theorem remaining_life_infinite_minimum (t_actual rate : Q) :
  0 < rate -> calculateRemainingLife t_actual PInf rate = Fin 0.
Proof.
  intro Hr. unfold calculateRemainingLife; simpl.
  q_case; [lra | reflexivity].
Qed.

Lemma remaining_life_infinite_minimum_witness :
  calculateRemainingLife 0.375 PInf 0.005 = Fin 0.
Proof.
  apply (remaining_life_infinite_minimum 0.375 0.005). reflexivity.
Defined.

(** ** MAWP and minimum thickness *)

Lemma Qdiv_le_cross (a b c d : Q) :
  0 < b -> 0 < d -> a * d <= c * b -> a / b <= c / d.
Proof.
  intros Hb Hd H.
  apply Qle_shift_div_r; [assumption|].
  setoid_replace (c / d * b) with ((c * b) / d) by (field; lra).
  apply Qle_shift_div_l; assumption.
Qed.

Lemma Qlt_div_r_iff (a b c : Q) : 0 < c -> (a < b / c <-> a * c < b).
Proof.
  intro Hc. split; intro H.
  - apply Qnot_le_lt. intro Hle.
    assert (b / c <= a) by (apply Qle_shift_div_r; assumption). lra.
  - now apply Qlt_shift_div_l.
Qed.

Lemma Qlt_div_l_iff (a b c : Q) : 0 < b -> (a / b < c <-> a < c * b).
Proof.
  intro Hb. split; intro H.
  - apply Qnot_le_lt. intro Hle.
    assert (c <= a / b) by (apply Qle_shift_div_l; assumption). lra.
  - now apply Qlt_shift_div_r.
Qed.

(** A MAWP formula [k*S*E*t / (R + c*t)] grows strictly with the
    thickness. *)
Lemma mawp_shape_increasing (SE R c t1 t2 : Q) :
  0 < R -> 0 < SE -> 0 <= c -> 0 <= t1 -> t1 < t2 ->
  SE * t1 / (R + c * t1) < SE * t2 / (R + c * t2).
Proof.
  intros HR HSE Hc Ht1 Hlt.
  assert (0 <= c * t1) by (apply Qmult_le_0_compat; lra).
  assert (0 <= c * t2) by (apply Qmult_le_0_compat; lra).
  apply Qdiv_lt_cross; try lra.
  assert (0 < (SE * R) * (t2 - t1))
    by (apply Qmult_lt_0_compat; [apply Qmult_lt_0_compat|]; lra).
  lra.
Qed.

(** For a positive radius (diameter) and S*E > 0, each MAWP function is
    strictly increasing in the thickness, from thickness 0 on. *)
Theorem mawp_increasing_in_thickness (R S E t1 t2 : Q) :
  0 < R -> 0 < S * E -> 0 <= t1 -> t1 < t2 ->
  calculateShellMAWP t1 R S E < calculateShellMAWP t2 R S E /\
  calculateEllipsoidalHeadMAWP t1 R S E < calculateEllipsoidalHeadMAWP t2 R S E /\
  calculateHemisphericalHeadMAWP t1 R S E
  < calculateHemisphericalHeadMAWP t2 R S E.
Proof.
  intros HR HSE Ht1 Hlt.
  unfold calculateShellMAWP, calculateEllipsoidalHeadMAWP,
    calculateHemisphericalHeadMAWP.
  repeat q_case; try lra.
  pose proof (mawp_shape_increasing (S * E) R 0.6 t1 t2
                HR HSE ltac:(lra) Ht1 Hlt) as H1.
  pose proof (mawp_shape_increasing (2 * (S * E)) R 0.2 t1 t2
                HR ltac:(lra) ltac:(lra) Ht1 Hlt) as H2.
  repeat split.
  - exact H1.
  - setoid_replace (2 * S * E * t1) with (2 * (S * E) * t1) by ring.
    setoid_replace (2 * S * E * t2) with (2 * (S * E) * t2) by ring.
    exact H2.
  - setoid_replace (2 * S * E * t1) with (2 * (S * E) * t1) by ring.
    setoid_replace (2 * S * E * t2) with (2 * (S * E) * t2) by ring.
    exact H2.
Qed.

Lemma mawp_increasing_in_thickness_witness :
  calculateShellMAWP 0.375 24 20000 0.85 < calculateShellMAWP 0.5 24 20000 0.85.
Proof.
  apply (mawp_increasing_in_thickness 24 20000 0.85 0.375 0.5);
    vm_compute; (reflexivity || discriminate).
Defined.

(** The round trip of the head formulas: for 2*S*E > 0.2*P, S*E > 0 and a
    positive radius (diameter), the head MAWP at the head minimum thickness
    is the design pressure, for hemispherical and for ellipsoidal heads. *)
Theorem head_round_trip (P R S E : Q) :
  0.2 * P < 2 * S * E -> 0 < S * E -> 0 < R ->
  (exists t, calculateHemisphericalHeadMinimumThickness P R S E = Fin t /\
             calculateHemisphericalHeadMAWP t R S E == P) /\
  (exists t, calculateEllipsoidalHeadMinimumThickness P R S E = Fin t /\
             calculateEllipsoidalHeadMAWP t R S E == P).
Proof.
  intros Hd Hse HR.
  assert (Hden : R + 0.2 * (P * R / (2 * S * E - 0.2 * P))
                 == R * (2 * S * E) / (2 * S * E - 0.2 * P)) by (field; lra).
  assert (Hpos : 0 < R * (2 * S * E) / (2 * S * E - 0.2 * P))
    by (apply Qdiv_pos; nra).
  assert (Hprod : 0 < R * (S * E)) by nra.
  split; exists (P * R / (2 * S * E - 0.2 * P)).
  - split; [now apply hemispherical_minimum_thickness_finite|].
    unfold calculateHemisphericalHeadMAWP.
    q_case; [lra|]. field. split; [lra|]. intro Hz. nra.
  - split.
    + unfold calculateEllipsoidalHeadMinimumThickness.
      q_case; [lra | reflexivity].
    + unfold calculateEllipsoidalHeadMAWP.
      q_case; [lra|]. field. split; [lra|]. intro Hz. nra.
Qed.

Lemma head_round_trip_witness :
  (exists t, calculateHemisphericalHeadMinimumThickness 150 24 20000 0.85 = Fin t /\
             calculateHemisphericalHeadMAWP t 24 20000 0.85 == 150) /\
  (exists t, calculateEllipsoidalHeadMinimumThickness 150 24 20000 0.85 = Fin t /\
             calculateEllipsoidalHeadMAWP t 24 20000 0.85 == 150).
Proof.
  apply (head_round_trip 150 24 20000 0.85); reflexivity.
Defined.

(** The round trip the other way: for a positive radius, S*E > 0 and a
    thickness t >= 0, the shell minimum thickness for the pressure
    calculateShellMAWP(t) is t again. *)
Theorem shell_inverse_round_trip (t R S E : Q) :
  0 < R -> 0 < S * E -> 0 <= t ->
  calculateShellMinimumThickness (calculateShellMAWP t R S E) R S E =n= Fin t.
Proof.
  intros HR HSE Ht.
  unfold calculateShellMAWP. q_case; [lra|].
  assert (Hd : S * E - 0.6 * (S * E * t / (R + 0.6 * t))
               == S * E * R / (R + 0.6 * t)) by (field; lra).
  assert (Hdpos : 0 < S * E * R / (R + 0.6 * t))
    by (apply Qdiv_pos; [nra | assumption]).
  rewrite shell_minimum_thickness_finite by lra.
  simpl. field. split; [lra|].
  assert (0 < R * (S * E)) by nra.
  intro Hz. nra.
Qed.

Lemma shell_inverse_round_trip_witness :
  calculateShellMinimumThickness (calculateShellMAWP 0.25 24 20000 0.85)
                                 24 20000 0.85 =n= Fin 0.25.
Proof.
  apply (shell_inverse_round_trip 0.25 24 20000 0.85);
    vm_compute; (reflexivity || discriminate).
Defined.

(** A shell is below its minimum thickness exactly when its MAWP is below
    the design pressure (positive radius, thickness >= 0, S*E > 0.6*P). *)
Theorem below_minimum_iff_mawp_below_pressure (P R S E t : Q) :
  0 < R -> 0 <= t -> 0.6 * P < S * E ->
  ((Fin t <? calculateShellMinimumThickness P R S E)%num = true
   <-> calculateShellMAWP t R S E < P).
Proof.
  intros HR Ht Hd.
  rewrite shell_minimum_thickness_finite by assumption. simpl.
  rewrite Qltb_true.
  unfold calculateShellMAWP. q_case; [lra|].
  rewrite Qlt_div_r_iff, Qlt_div_l_iff by lra.
  split; intro H; lra.
Qed.

Lemma below_minimum_iff_mawp_below_pressure_witness :
  (Fin 0.2 <? calculateShellMinimumThickness 150 24 20000 0.85)%num = true
  <-> calculateShellMAWP 0.2 24 20000 0.85 < 150.
Proof.
  apply (below_minimum_iff_mawp_below_pressure 150 24 20000 0.85 0.2);
    vm_compute; (reflexivity || discriminate).
Defined.

(* ------------------------------------------------------------------ *)
(** * Further properties of the component pipeline *)

Lemma rate_positive (t0 actual span : Q) :
  0 < calculateShortTermCorrosionRate t0 actual span.
Proof.
  unfold calculateShortTermCorrosionRate, MIN_NOMINAL_RATE.
  repeat q_case; lra.
Qed.

Lemma pcc_corrosionRate_positive (input : CalculationInput) :
  0 < CalculationsExt.pcc_corrosionRate input.
Proof.
  unfold CalculationsExt.pcc_corrosionRate, selectGoverningRate.
  destruct (Qle_bool _ _); simpl; apply rate_positive.
Qed.

(** The rounded remaining life and the governing rate of the result are
    the two locals. *)
Lemma pcc_result_fields (sqrt_fin : Q -> Q) (input : CalculationInput) :
  let result := performComponentCalculations sqrt_fin input in
  remainingLife result
  = nround_to 10 (CalculationsExt.pcc_remainingLife sqrt_fin input) /\
  nextInspectionYears result
  = nround_to 10 (calculateNextInspectionInterval
                    (CalculationsExt.pcc_remainingLife sqrt_fin input)) /\
  isBelowMinimum result
  = (Fin (actualThickness input) <? pcc_minimumThickness sqrt_fin input)%num /\
  statusMessage result
  = (if isBelowMinimum result then "UNSAFE - BELOW MINIMUM THICKNESS"
     else if (CalculationsExt.pcc_remainingLife sqrt_fin input <? Fin 2)%num
     then "CRITICAL - Less than 2 years remaining life"
     else if (CalculationsExt.pcc_remainingLife sqrt_fin input <? Fin 5)%num
     then "WARNING - Less than 5 years remaining life"
     else "ACCEPTABLE")%string.
Proof.
  unfold performComponentCalculations, CalculationsExt.pcc_remainingLife,
    CalculationsExt.pcc_corrosionRate.
  destruct (selectGoverningRate _ _) as [[tag rate] why].
  repeat split.
Qed.

(** A component below its minimum thickness (an infinite minimum
    included) gets remaining life 0, inspection interval 0 and the status
    UNSAFE, whatever its corrosion rates are. *)
Theorem below_minimum_zero_life (sqrt_fin : Q -> Q) (input : CalculationInput) :
  let result := performComponentCalculations sqrt_fin input in
  isBelowMinimum result = true ->
  remainingLife result =n= Fin 0 /\
  nextInspectionYears result =n= Fin 0 /\
  statusMessage result = "UNSAFE - BELOW MINIMUM THICKNESS"%string.
Proof.
  intros result Hbelow.
  destruct (pcc_result_fields sqrt_fin input) as (Hrl & Hnext & Hb & Hst).
  fold result in Hrl, Hnext, Hb, Hst.
  rewrite Hst, Hrl, Hnext, Hbelow. rewrite Hbelow in Hb.
  assert (Hzero : CalculationsExt.pcc_remainingLife sqrt_fin input = Fin 0).
  { unfold CalculationsExt.pcc_remainingLife, calculateRemainingLife.
    pose proof (pcc_corrosionRate_positive input) as Hpos.
    destruct (Qle_bool (CalculationsExt.pcc_corrosionRate input) 0) eqn:E;
      q_reflect; [lra|].
    destruct (pcc_minimumThickness sqrt_fin input) as [m| | |];
      simpl in Hb |- *; try discriminate; [|reflexivity].
    symmetry in Hb. q_reflect.
    destruct (Qle_bool (actualThickness input + - m) 0) eqn:E';
      q_reflect; [reflexivity | lra]. }
  rewrite Hzero. repeat split.
Qed.

Lemma below_minimum_zero_life_witness :
  remainingLife
    (performComponentCalculations (fun q => q)
       (mkInput 150 200 48 20000 0.85 0.2 (Some 0.4) None None (Some 5)
                None None (Some shell) None)) =n= Fin 0.
Proof.
  apply (below_minimum_zero_life (fun q => q)
       (mkInput 150 200 48 20000 0.85 0.2 (Some 0.4) None None (Some 5)
                None None (Some shell) None)).
  reflexivity.
Defined.

(** With no total span, no initial and no nominal thickness given (or
    given as zero), the long-term rate is the short-term rate and the
    governing tag is 'LT'. *)
Theorem long_term_defaults_to_short_term (sqrt_fin : Q -> Q)
    (input : CalculationInput) :
  absent_or_zero (totalTimeSpan input) ->
  absent_or_zero (initialThickness input) ->
  absent_or_zero (nominalThickness input) ->
  pcc_corrosionRateLT input = pcc_corrosionRateST input /\
  governingRate (performComponentCalculations sqrt_fin input) = LT.
Proof.
  intros Ht Hi Hn.
  assert (Heq : pcc_corrosionRateLT input = pcc_corrosionRateST input).
  { unfold pcc_corrosionRateLT, pcc_corrosionRateST, pcc_totalTimeSpan,
      pcc_initialThickness.
    rewrite (or_num_absent _ _ Ht), (or_opt_absent _ _ Hi),
      (or_num_absent _ _ Hn).
    reflexivity. }
  split; [exact Heq|].
  unfold performComponentCalculations, selectGoverningRate.
  rewrite Heq.
  destruct (Qle_bool _ _) eqn:E; [reflexivity|].
  q_reflect. lra.
Qed.

Lemma long_term_defaults_to_short_term_witness :
  pcc_corrosionRateLT (Samples.shell_input (Some 5))
  = pcc_corrosionRateST (Samples.shell_input (Some 5)) /\
  governingRate
    (performComponentCalculations (fun q => q) (Samples.shell_input (Some 5)))
  = LT.
Proof.
  apply (long_term_defaults_to_short_term (fun q => q)
           (Samples.shell_input (Some 5))); exact I.
Defined.

(** ** Rounding of the result *)

(** [Math.round(x * k) / k] is within half a unit of the last kept place
    of [x]. *)
Theorem round_to_error (k x : Q) :
  0 < k ->
  x - 1 / (2 * k) < round_to k x /\ round_to k x <= x + 1 / (2 * k).
Proof.
  intro Hk. unfold round_to, Qround_half_up.
  pose proof (Qfloor_le (x * k + 0.5)) as Hle.
  pose proof (Qlt_floor (x * k + 0.5)) as Hlt.
  rewrite inject_Z_plus in Hlt. change (inject_Z 1) with 1 in Hlt.
  set (z := inject_Z (Qfloor (x * k + 0.5))) in *.
  assert (Hhalf : 1 / (2 * k) * k == 0.5) by (field; lra).
  split.
  - apply Qlt_shift_div_l; [assumption|].
    setoid_replace ((x - 1 / (2 * k)) * k) with (x * k - 1 / (2 * k) * k)
      by ring.
    lra.
  - apply Qle_shift_div_r; [assumption|].
    setoid_replace ((x + 1 / (2 * k)) * k) with (x * k + 1 / (2 * k) * k)
      by ring.
    lra.
Qed.

Lemma round_to_error_witness :
  0.2129 - 1 / (2 * 1000) < round_to 1000 0.2129 /\
  round_to 1000 0.2129 <= 0.2129 + 1 / (2 * 1000).
Proof.
  apply (round_to_error 1000 0.2129). reflexivity.
Defined.

Lemma nround_to_10_range (years : Q) :
  0 <= years <= 10 ->
  exists y, nround_to 10 (Fin years) = Fin y /\ 0 <= y <= 10.
Proof.
  intros [H0 H10]. unfold nround_to. simpl.
  exists (inject_Z (Qround_half_up (years * 10)) / 10).
  split; [reflexivity|].
  destruct (round_half_up_between 0 100 (years * 10)) as [Hlo Hhi].
  - change (inject_Z 0) with 0. lra.
  - change (inject_Z 100) with 100. lra.
  - rewrite Zle_Qle in Hlo, Hhi.
    change (inject_Z 0) with 0 in Hlo. change (inject_Z 100) with 100 in Hhi.
    split.
    + apply Qle_shift_div_l; lra.
    + apply Qle_shift_div_r; lra.
Qed.

(** The value reported as [nextInspectionYears], the interval of the
    remaining life rounded to one decimal, is NaN exactly when the
    remaining life is NaN; for every other remaining life, the infinite
    ones included, it is a number between 0 and 10. *)
Theorem reported_interval_capped (remainingLife : num) :
  let reported :=
    nround_to 10 (calculateNextInspectionInterval remainingLife) in
  (remainingLife = NaN /\ reported = NaN) \/
  (remainingLife <> NaN /\
   exists years, reported = Fin years /\ 0 <= years <= 10).
Proof.
  intro reported. unfold reported.
  destruct remainingLife as [x| | |].
  4: left; split; reflexivity.
  all: right; split; [discriminate|].
  all: match goal with |- context [calculateNextInspectionInterval ?a] =>
         destruct (next_interval_in_range a ltac:(discriminate))
           as (years & -> & Hrange & _)
       end; now apply nround_to_10_range.
Qed.

(** On finite inputs, [nextInspectionYears] of the result is that value
    for the remaining life before rounding. *)
Lemma pcc_nextInspectionYears (sqrt_fin : Q -> Q) (input : CalculationInput) :
  nextInspectionYears (performComponentCalculations sqrt_fin input)
  = nround_to 10 (calculateNextInspectionInterval
                    (CalculationsExt.pcc_remainingLife sqrt_fin input)).
Proof. apply pcc_result_fields. Qed.

Section PipelineRange.

Variable sqrt_fin : Q -> Q.

(** ** The criticality test of the router *)

Lemma nround_to_10_below_2 (a : num) :
  (nround_to 10 a <? Fin 2)%num = (a <? Fin 1.95)%num.
Proof.
  destruct a as [x| | |]; try reflexivity.
  unfold nround_to. simpl. unfold Qround_half_up.
  pose proof (Qfloor_le (x * 10 + 0.5)) as Hle.
  pose proof (Qlt_floor (x * 10 + 0.5)) as Hlt.
  rewrite inject_Z_plus in Hlt. change (inject_Z 1) with 1 in Hlt.
  destruct (Qltb x 1.95) eqn:E; q_reflect.
  - apply Qlt_shift_div_r; [reflexivity|].
    assert (H : (Qfloor (x * 10 + 0.5) < 20)%Z).
    { rewrite Zlt_Qlt. change (inject_Z 20) with 20. lra. }
    assert (H' : (Qfloor (x * 10 + 0.5) <= 19)%Z) by lia.
    rewrite Zle_Qle in H'. change (inject_Z 19) with 19 in H'. lra.
  - apply Qle_shift_div_l; [reflexivity|].
    assert (H : (20 <= Qfloor (x * 10 + 0.5))%Z).
    { rewrite <- (Qfloor_Z 20). apply Qfloor_resp_le.
      change (inject_Z 20) with 20. lra. }
    rewrite Zle_Qle in H. change (inject_Z 20) with 20 in H. lra.
Qed.

Lemma isCritical_unrounded (input : CalculationInput) :
  RouterExt.isCritical (performComponentCalculations sqrt_fin input)
  = (Fin (actualThickness input) <? pcc_minimumThickness sqrt_fin input)%num
    || (CalculationsExt.pcc_remainingLife sqrt_fin input <? Fin 1.95)%num.
Proof.
  unfold RouterExt.isCritical.
  destruct (pcc_result_fields sqrt_fin input) as (Hrl & _ & Hb & _).
  rewrite Hrl, Hb, nround_to_10_below_2. reflexivity.
Qed.

(** The router lists a component as critical exactly when it is below
    its minimum thickness or its remaining life, before rounding, is
    below 1.95 years: the test reads the remaining life rounded to one
    decimal. *)
Theorem critical_alert_threshold (input : CalculationInput) :
  RouterExt.isCritical (performComponentCalculations sqrt_fin input)
  = (Fin (actualThickness input) <? pcc_minimumThickness sqrt_fin input)%num
    || (CalculationsExt.pcc_remainingLife sqrt_fin input <? Fin 1.95)%num.
Proof. exact (isCritical_unrounded input). Qed.

(** Every component that the router lists as critical has the status
    UNSAFE or CRITICAL. *)
Theorem critical_alert_has_critical_status (input : CalculationInput) :
  let result := performComponentCalculations sqrt_fin input in
  RouterExt.isCritical result = true ->
  statusMessage result = "UNSAFE - BELOW MINIMUM THICKNESS"%string \/
  statusMessage result = "CRITICAL - Less than 2 years remaining life"%string.
Proof.
  intros result Hcrit. unfold result in *.
  rewrite isCritical_unrounded in Hcrit.
  destruct (pcc_result_fields sqrt_fin input) as (_ & _ & Hb & Hst).
  rewrite Hst, Hb.
  destruct (Fin (actualThickness input) <? _)%num; [now left|].
  simpl in Hcrit. right.
  destruct (CalculationsExt.pcc_remainingLife sqrt_fin input) as [x| | |];
    simpl in *; try discriminate; [|reflexivity].
  q_reflect.
  destruct (Qltb x 2) eqn:E; q_reflect; [reflexivity | lra].
Qed.

End PipelineRange.

Lemma critical_alert_has_critical_status_witness :
  statusMessage
    (performComponentCalculations (fun q => q)
       (mkInput 150 200 48 20000 0.85 0.22 (Some 0.4) None None (Some 5)
                None None (Some shell) None))
  = "UNSAFE - BELOW MINIMUM THICKNESS"%string \/
  statusMessage
    (performComponentCalculations (fun q => q)
       (mkInput 150 200 48 20000 0.85 0.22 (Some 0.4) None None (Some 5)
                None None (Some shell) None))
  = "CRITICAL - Less than 2 years remaining life"%string.
Proof.
  apply (critical_alert_has_critical_status (fun q => q)
       (mkInput 150 200 48 20000 0.85 0.22 (Some 0.4) None None (Some 5)
                None None (Some shell) None)).
  reflexivity.
Defined.

(** A component can have the status CRITICAL and yet not be listed: here
    the remaining life is about 1.97 years, reported as 2.0. *)
Lemma critical_status_without_alert :
  statusMessage
    (performComponentCalculations (fun q => q)
       (mkInput 150 200 48 20000 0.85 0.2326 (Some 0.3326) None None (Some 10)
                None None (Some shell) None))
  = "CRITICAL - Less than 2 years remaining life"%string /\
  RouterExt.isCritical
    (performComponentCalculations (fun q => q)
       (mkInput 150 200 48 20000 0.85 0.2326 (Some 0.3326) None None (Some 10)
                None None (Some shell) None)) = false.
Proof. split; reflexivity. Qed.

(* ------------------------------------------------------------------ *)
(** * Time span, anomalies, de-rating and nozzles *)

(** ** Time span *)

Lemma msPerYear_positive : 0 < CalculationsExt.msPerYear.
Proof. reflexivity. Qed.

Lemma time_span_facts (a b c : Z) :
  (0 < CalculationsExt.calculateTimeSpanYears a b <-> (a < b)%Z) /\
  (CalculationsExt.calculateTimeSpanYears a b == 0 <-> a = b) /\
  CalculationsExt.calculateTimeSpanYears b a
  == - CalculationsExt.calculateTimeSpanYears a b /\
  CalculationsExt.calculateTimeSpanYears a b
  + CalculationsExt.calculateTimeSpanYears b c
  == CalculationsExt.calculateTimeSpanYears a c.
Proof.
  pose proof msPerYear_positive as Hms.
  unfold CalculationsExt.calculateTimeSpanYears.
  set (ms := CalculationsExt.msPerYear) in *.
  repeat match goal with |- _ /\ _ => split end.
  - rewrite Zlt_Qlt. split; intro H.
    + apply Qlt_div_r_iff in H; [lra | assumption].
    + apply Qlt_div_r_iff; [assumption | lra].
  - rewrite <- inject_Z_injective. split; intro H.
    + assert (H' : (inject_Z b - inject_Z a) / ms * ms
                   == inject_Z b - inject_Z a) by (field; lra).
      rewrite H in H'. lra.
    + rewrite H. field. lra.
  - field. lra.
  - field. lra.
Qed.

(** The span is positive exactly when the end date is after the start
    date, is zero exactly for equal dates, changes sign when the dates are
    swapped, and adds up over an intermediate date. *)
Theorem time_span_signed_and_additive (a b c : Z) :
  (0 < CalculationsExt.calculateTimeSpanYears a b <-> (a < b)%Z) /\
  (CalculationsExt.calculateTimeSpanYears a b == 0 <-> a = b) /\
  CalculationsExt.calculateTimeSpanYears b a
  == - CalculationsExt.calculateTimeSpanYears a b /\
  CalculationsExt.calculateTimeSpanYears a b
  + CalculationsExt.calculateTimeSpanYears b c
  == CalculationsExt.calculateTimeSpanYears a c.
Proof. exact (time_span_facts a b c). Qed.

(** When the router takes the span from the two dates: a previous
    inspection dated on the inspection day gives the 10-year default in
    the calculation, and one dated later makes both corrosion rates the
    nominal 0.001. *)
Theorem reversed_dates_give_nominal_rates (input : CalculationInput)
    (inspection previous : Z) :
  timeSpan input
  = Some (RouterExt.recalculate_timeSpan (Some inspection) (Some previous)) ->
  totalTimeSpan input = None ->
  (inspection = previous -> pcc_timeSpan input = 10) /\
  ((inspection < previous)%Z ->
     pcc_corrosionRateST input = MIN_NOMINAL_RATE /\
     pcc_corrosionRateLT input = MIN_NOMINAL_RATE).
Proof.
  intros Hspan Htotal.
  destruct (time_span_facts previous inspection inspection)
    as (Hpos & Hzero & _).
  unfold RouterExt.recalculate_timeSpan in Hspan.
  split.
  - intro Heq. unfold pcc_timeSpan. rewrite Hspan. simpl.
    replace (Qeq_bool _ 0) with true; [reflexivity|].
    symmetry. apply Qeq_bool_iff. apply Hzero. congruence.
  - intro Hlt.
    assert (Hneg : CalculationsExt.calculateTimeSpanYears previous inspection < 0).
    { destruct (Qlt_le_dec
                  (CalculationsExt.calculateTimeSpanYears previous inspection) 0)
        as [H|H]; [assumption|].
      destruct (Qeq_dec
                  (CalculationsExt.calculateTimeSpanYears previous inspection) 0)
        as [Hz|Hz].
      - apply Hzero in Hz. lia.
      - assert (0 < CalculationsExt.calculateTimeSpanYears previous inspection)
          by lra.
        apply Hpos in H0. lia. }
    assert (Hts : pcc_timeSpan input
                  = CalculationsExt.calculateTimeSpanYears previous inspection).
    { unfold pcc_timeSpan. rewrite Hspan. simpl.
      destruct (Qeq_bool _ 0) eqn:E; q_reflect; [lra | reflexivity]. }
    unfold pcc_corrosionRateST, pcc_corrosionRateLT, pcc_totalTimeSpan.
    rewrite Htotal. simpl or_num. rewrite Hts.
    unfold calculateShortTermCorrosionRate, calculateLongTermCorrosionRate.
    replace (Qle_bool _ 0) with true; [split; reflexivity|].
    symmetry. apply Qle_bool_iff. lra.
Qed.

Lemma reversed_dates_give_nominal_rates_witness :
  pcc_corrosionRateST
    (Samples.shell_input
       (Some (RouterExt.recalculate_timeSpan (Some 0%Z) (Some 86400000%Z))))
  = MIN_NOMINAL_RATE.
Proof.
  apply (reversed_dates_give_nominal_rates
           (Samples.shell_input
              (Some (RouterExt.recalculate_timeSpan (Some 0%Z) (Some 86400000%Z))))
           0 86400000 eq_refl eq_refl).
  reflexivity.
Defined.

(** ** Anomaly detection *)


(** ** De-rated MAWP *)

(** At the same thickness and radius the de-rated MAWP of a head is at
    least that of the shell (thickness >= 0, positive radius,
    S*E >= 0). *)
Theorem derated_head_at_least_shell (t R S E : Q) :
  0 <= t -> 0 < R -> 0 <= S * E ->
  CalculationsExt.calculateDeratedMAWP t R S E None
  = calculateShellMAWP t R S E /\
  CalculationsExt.calculateDeratedMAWP t R S E
    (Some CalculationsExt.derated_shell)
  <= CalculationsExt.calculateDeratedMAWP t R S E
       (Some CalculationsExt.derated_head).
Proof.
  intros Ht HR HSE. split; [reflexivity|].
  unfold CalculationsExt.calculateDeratedMAWP, calculateShellMAWP,
    calculateEllipsoidalHeadMAWP.
  repeat q_case; try lra.
  apply Qdiv_le_cross; try lra.
  assert (0 <= (S * E) * (t * t))
    by (apply Qmult_le_0_compat; [|apply Qmult_le_0_compat]; lra).
  lra.
Qed.

Lemma derated_head_at_least_shell_witness :
  CalculationsExt.calculateDeratedMAWP 0.25 24 20000 0.85
    (Some CalculationsExt.derated_shell)
  <= CalculationsExt.calculateDeratedMAWP 0.25 24 20000 0.85
       (Some CalculationsExt.derated_head).
Proof.
  apply (derated_head_at_least_shell 0.25 24 20000 0.85);
    vm_compute; (reflexivity || discriminate).
Defined.

(** ** Nozzle minimum thickness *)

Lemma remove_first_absent (c : ascii) (s : string) :
  RouterExt.includes c s = false -> CalculationsExt.remove_first c s = s.
Proof.
  induction s as [|a s IH]; simpl; [reflexivity|].
  intro H. apply orb_false_iff in H as [Ha Hs].
  rewrite Ha, IH by assumption. reflexivity.
Qed.

Lemma remove_first_trailing (c : ascii) (s : string) :
  RouterExt.includes c s = false ->
  CalculationsExt.remove_first c (s ++ String c "") = s.
Proof.
  induction s as [|a s IH]; simpl.
  - intros _. now rewrite Ascii.eqb_refl.
  - intro H. apply orb_false_iff in H as [Ha Hs].
    rewrite Ha, IH by assumption. reflexivity.
Qed.

(** A trailing inch mark on the nozzle size changes nothing: the size
    with the mark gives the thickness of the size without it. *)
Theorem nozzle_inch_mark_ignored (pressure : Q) (size : string)
    (allowableStress : Q) (jointEfficiency : option Q) :
  RouterExt.includes CalculationsExt.dquote size = false ->
  CalculationsExt.calculateNozzleMinimumThickness pressure
    (size ++ String CalculationsExt.dquote "") allowableStress jointEfficiency
  = CalculationsExt.calculateNozzleMinimumThickness pressure size
      allowableStress jointEfficiency.
Proof.
  intro H. unfold CalculationsExt.calculateNozzleMinimumThickness.
  now rewrite remove_first_trailing, remove_first_absent.
Qed.

Lemma nozzle_inch_mark_ignored_witness :
  CalculationsExt.calculateNozzleMinimumThickness 150
    ("2" ++ String CalculationsExt.dquote "") 20000 None
  = CalculationsExt.calculateNozzleMinimumThickness 150 "2" 20000 None.
Proof.
  apply (nozzle_inch_mark_ignored 150 "2" 20000 None). reflexivity.
Defined.

Lemma ndiv_two (x : Q) : (Fin x / Fin 2)%num = Fin (x / 2).
Proof. reflexivity. Qed.

Lemma table_get_bounds (table : list (Q * Q)) (key v : Q) :
  Forall (fun kv => fst kv <= snd kv <= fst kv + 0.75) table ->
  CalculationsExt.table_get table key = Some v ->
  key <= v <= key + 0.75.
Proof.
  induction 1 as [|[k w] rest Hkw _ IH]; simpl; [discriminate|].
  destruct (Qeq_bool k key) eqn:E; q_reflect; [|exact IH].
  intros [= <-]. simpl in Hkw. lra.
Qed.

Lemma odTable_bounds :
  Forall (fun kv => fst kv <= snd kv <= fst kv + 0.75) CalculationsExt.odTable.
Proof.
  unfold CalculationsExt.odTable.
  repeat (constructor; [split; vm_compute; discriminate|]).
  constructor.
Qed.

(** A nozzle size that parses to a finite number n is computed with the
    shell formula at half an outside diameter between n and n + 0.75
    (the tabulated diameter, or n + 0.375 for a size that is not in the
    table); the joint efficiency is 1 when none is given. *)
Theorem nozzle_uses_shell_formula (pressure : Q) (size : string)
    (allowableStress : Q) (jointEfficiency : option Q) (n : Q) :
  Router.parseFloat (CalculationsExt.remove_first CalculationsExt.dquote size)
  = Fin n ->
  exists od,
    n <= od <= n + 0.75 /\
    (CalculationsExt.table_get CalculationsExt.odTable n = None ->
       od = n + 0.375) /\
    CalculationsExt.calculateNozzleMinimumThickness pressure size
      allowableStress jointEfficiency
    = calculateShellMinimumThickness pressure (od / 2) allowableStress
        (match jointEfficiency with Some e => e | None => 1.0 end).
Proof.
  intro Hparse. unfold CalculationsExt.calculateNozzleMinimumThickness.
  rewrite Hparse, ndiv_two.
  exists (or_num (CalculationsExt.table_get CalculationsExt.odTable n)
                 (n + 0.375)).
  split; [|split].
  - destruct (CalculationsExt.table_get CalculationsExt.odTable n) as [v|] eqn:E;
      simpl; [|lra].
    pose proof (table_get_bounds _ _ _ odTable_bounds E).
    destruct (Qeq_bool v 0); lra.
  - intros ->. reflexivity.
  - reflexivity.
Qed.

Lemma nozzle_uses_shell_formula_witness :
  exists od,
    2 <= od <= 2 + 0.75 /\
    (CalculationsExt.table_get CalculationsExt.odTable 2 = None ->
       od = 2 + 0.375) /\
    CalculationsExt.calculateNozzleMinimumThickness 150 "2" 20000 None
    = calculateShellMinimumThickness 150 (od / 2) 20000 1.0.
Proof.
  apply (nozzle_uses_shell_formula 150 "2" 20000 None 2). reflexivity.
Defined.

(** A nozzle size that does not parse never gives a finite thickness:
    the result is NaN, or Infinity when the pressure cannot be
    sustained. *)
Theorem nozzle_unparsed_size (pressure : Q) (size : string)
    (allowableStress : Q) (jointEfficiency : option Q) :
  Router.parseFloat (CalculationsExt.remove_first CalculationsExt.dquote size)
  = NaN ->
  CalculationsExt.calculateNozzleMinimumThickness pressure size
    allowableStress jointEfficiency
  = if Qle_bool (allowableStress
                 * (match jointEfficiency with Some e => e | None => 1.0 end)
                 - 0.6 * pressure) 0
    then PInf else NaN.
Proof.
  intro Hparse. unfold CalculationsExt.calculateNozzleMinimumThickness.
  rewrite Hparse. simpl.
  destruct jointEfficiency; destruct (Qle_bool _ 0); reflexivity.
Qed.

Lemma nozzle_unparsed_size_witness :
  CalculationsExt.calculateNozzleMinimumThickness 150 "two" 20000 None = NaN.
Proof.
  apply (nozzle_unparsed_size 150 "two" 20000 None). reflexivity.
Defined.

(** ** CSV export *)

Lemma read_quoted_double_quotes (s : string) :
  RouterExt.read_quoted
    (RouterExt.double_quotes s ++ String CalculationsExt.dquote "") = s.
Proof.
  induction s as [|a s IH]; [reflexivity|].
  simpl RouterExt.double_quotes.
  destruct (Ascii.eqb a CalculationsExt.dquote) eqn:E.
  - apply Ascii.eqb_eq in E. subst a.
    cbn [append RouterExt.read_quoted]. rewrite Ascii.eqb_refl, IH.
    reflexivity.
  - cbn [append RouterExt.read_quoted]. rewrite E, IH. reflexivity.
Qed.

(** Reading an escaped value back as a CSV field gives the value. *)
Lemma escapeCSV_read_back (s : string) :
  RouterExt.read_csv_field (RouterExt.escapeCSV (Some s)) = s.
Proof.
  unfold RouterExt.escapeCSV.
  destruct (RouterExt.includes "," s) eqn:Ec;
    destruct (RouterExt.includes CalculationsExt.dquote s) eqn:Eq;
    destruct (RouterExt.includes RouterExt.newline s) eqn:En;
    cbn [orb RouterExt.read_csv_field];
    try (rewrite Ascii.eqb_refl; apply read_quoted_double_quotes).
  destruct s as [|a s]; [reflexivity|].
  simpl in Eq. apply orb_false_iff in Eq as [Ha _].
  simpl. now rewrite Ha.
Qed.

(** [escapeCSV] keeps strings apart: two strings with the same escaped
    form are the same string; and a string without comma, double quote
    and newline is left as it is. *)
Theorem escapeCSV_injective (a b : string) :
  (RouterExt.escapeCSV (Some a) = RouterExt.escapeCSV (Some b) -> a = b) /\
  (RouterExt.includes "," a = false ->
   RouterExt.includes CalculationsExt.dquote a = false ->
   RouterExt.includes RouterExt.newline a = false ->
   RouterExt.escapeCSV (Some a) = a).
Proof.
  split.
  - intro H. rewrite <- (escapeCSV_read_back a), <- (escapeCSV_read_back b).
    now rewrite H.
  - intros Hc Hq Hn. unfold RouterExt.escapeCSV.
    now rewrite Hc, Hq, Hn.
Qed.

Lemma escapeCSV_injective_witness :
  RouterExt.escapeCSV (Some "Vessel Shell"%string) = "Vessel Shell"%string.
Proof.
  apply (proj2 (escapeCSV_injective "Vessel Shell" "")); reflexivity.
Defined.

(* ------------------------------------------------------------------ *)
(** * Further properties of the stress lookup and of the reduction *)

Lemma filter_conj_left {A : Type} (p q : A -> bool) (l : list A) :
  filter (fun x => p x && q x) (filter p l) = filter (fun x => p x && q x) l.
Proof.
  induction l as [|a l IH]; simpl; [reflexivity|].
  destruct (p a) eqn:Ep; simpl; [rewrite Ep; simpl|]; now rewrite IH.
Qed.

(** The rows of other materials have no influence on the lookup: it gives
    the same answer on the rows of the material alone. *)
Theorem stress_lookup_ignores_other_materials
    (table : list Db.MaterialStressValue) (spec : string) (target : Q) :
  Db.getMaterialStressValue
    (Some (filter (fun row => String.eqb (Db.materialSpec row) spec) table))
    spec target
  = Db.getMaterialStressValue (Some table) spec target.
Proof.
  unfold Db.getMaterialStressValue.
  rewrite (filter_conj_left
             (fun row => String.eqb (Db.materialSpec row) spec)
             (fun row => Qle_bool (inject_Z (Db.temperature row)) target)),
          (filter_conj_left
             (fun row => String.eqb (Db.materialSpec row) spec)
             (fun row => Qle_bool target (inject_Z (Db.temperature row)))).
  reflexivity.
Qed.

(** At a tabulated temperature of the material the lookup returns a
    stress that is tabulated for the material at that temperature,
    without interpolation. *)
Theorem stress_lookup_at_tabulated_temperature
    (table : list Db.MaterialStressValue) (spec : string)
    (row : Db.MaterialStressValue) :
  Db.tabulated table spec row ->
  exists row',
    Db.tabulated table spec row' /\
    Db.temperature row' = Db.temperature row /\
    Db.getMaterialStressValue (Some table) spec
      (inject_Z (Db.temperature row))
    = Some (Db.allowableStress row').
Proof.
  intro Htab. unfold Db.getMaterialStressValue.
  pose proof (lower_rows_bound table spec (inject_Z (Db.temperature row))) as Hl.
  pose proof (upper_rows_bound table spec (inject_Z (Db.temperature row))) as Hu.
  destruct (Db.limit 1 (Db.order_by Db.desc _)) as [|l restl].
  { exfalso. apply (Hl row Htab). lra. }
  destruct (Db.limit 1 (Db.order_by Db.asc _)) as [|u restu].
  { exfalso. apply (Hu row Htab). lra. }
  destruct Hl as (Htabl & Hlel & Hmaxl). destruct Hu as (Htabu & Hleu & Hminu).
  rewrite <- Zle_Qle in Hlel, Hleu.
  assert (Hl' : (Db.temperature row <= Db.temperature l)%Z)
    by (apply Hmaxl; [assumption | lra]).
  assert (Hu' : (Db.temperature u <= Db.temperature row)%Z)
    by (apply Hminu; [assumption | lra]).
  assert (Heq : Db.temperature l = Db.temperature u) by lia.
  rewrite Heq, Z.eqb_refl.
  exists l. repeat split; try apply Htabl. lia.
Qed.

Lemma stress_lookup_at_tabulated_temperature_witness :
  exists row',
    Db.tabulated Samples.stress_table "SA-516-70" row' /\
    Db.temperature row' = 500%Z /\
    Db.getMaterialStressValue (Some Samples.stress_table) "SA-516-70"
      (inject_Z 500)
    = Some (Db.allowableStress row').
Proof.
  apply (stress_lookup_at_tabulated_temperature Samples.stress_table
           "SA-516-70" (Db.mkRow "SA-516-70" 500 19000)).
  split; [right; right; left; reflexivity | reflexivity].
Defined.

Lemma group_readings_spec (tmlReadings : list Router.TmlReading)
    (groups : Router.Groups) :
  RouterChecked.group_readings groups tmlReadings
  = if existsb (fun r => RouterChecked.inherited (RouterChecked.group_key r))
               tmlReadings
    then None
    else Some (fold_left
                 (fun groups reading =>
                    Router.push_group groups
                      (Router.str_or (Router.componentType reading) "shell")
                      reading)
                 tmlReadings groups).
Proof.
  revert groups.
  induction tmlReadings as [|r rs IH]; intro groups; simpl; [reflexivity|].
  destruct (RouterChecked.inherited (RouterChecked.group_key r));
    [reflexivity | apply IH].
Qed.

Lemma recalculate_checked_spec (nominal : option string)
    (tmlReadings : list Router.TmlReading) (type : string) :
  RouterChecked.recalculate_thicknesses nominal tmlReadings type
  = if existsb (fun r => RouterChecked.inherited (RouterChecked.group_key r))
               tmlReadings
    then None
    else Some (Router.worstCaseThicknesses nominal
                 (filter (fun r => String.eqb (RouterChecked.group_key r) type)
                         tmlReadings)).
Proof.
  unfold RouterChecked.recalculate_thicknesses, RouterChecked.componentGroups.
  rewrite group_readings_spec.
  destruct (existsb _ tmlReadings); [reflexivity|].
  now rewrite fold_groups_lookup.
Qed.

(** [recalculate] throws as soon as one reading declares a component type
    that names a member of [Object.prototype] ('constructor', 'toString',
    '__proto__', ...).  Otherwise the readings reduced for a component are
    the readings of the set that declare its type, in their order, a
    reading with no declared type (or an empty one) counting as a shell
    reading. *)
Theorem component_partition (nominal : option string)
    (tmlReadings : list Router.TmlReading) (type : string) :
  RouterChecked.recalculate_thicknesses nominal tmlReadings type
  = if existsb (fun r => RouterChecked.inherited (RouterChecked.group_key r))
               tmlReadings
    then None
    else Some (Router.worstCaseThicknesses nominal
                 (filter (fun r => String.eqb (RouterChecked.group_key r) type)
                         tmlReadings)).
Proof. exact (recalculate_checked_spec nominal tmlReadings type). Qed.

(** A reading that declares another component type, and not one that
    names a member of [Object.prototype], has no influence on the outcome
    for a component, wherever it stands in the reading set; a reading
    whose type names such a member makes the run throw. *)
Theorem other_component_reading_ignored (nominal : option string)
    (before after : list Router.TmlReading) (reading : Router.TmlReading)
    (type : string) :
  (RouterChecked.inherited (RouterChecked.group_key reading) = false ->
   RouterChecked.group_key reading <> type ->
   RouterChecked.recalculate_thicknesses nominal
     (before ++ reading :: after) type
   = RouterChecked.recalculate_thicknesses nominal (before ++ after) type) /\
  (RouterChecked.inherited (RouterChecked.group_key reading) = true ->
   RouterChecked.recalculate_thicknesses nominal
     (before ++ reading :: after) type = None).
Proof.
  rewrite !recalculate_checked_spec, !existsb_app, !filter_app. simpl.
  split.
  - intros Hin Hne. rewrite Hin. simpl.
    destruct (String.eqb_spec (RouterChecked.group_key reading) type);
      [contradiction | reflexivity].
  - intros Hin. rewrite Hin. simpl. now rewrite orb_true_r.
Qed.

Lemma other_component_reading_ignored_witness :
  RouterChecked.recalculate_thicknesses (Some "0.625"%string)
    ([] ++ Samples.four_angle_reading :: []) "east_head"
  = RouterChecked.recalculate_thicknesses (Some "0.625"%string)
      ([] ++ []) "east_head" /\
  RouterChecked.recalculate_thicknesses (Some "0.625"%string)
    ([Samples.four_angle_reading] ++ DoubleSamples.constructor_reading :: [])
    "shell" = None.
Proof.
  split.
  - apply (proj1 (other_component_reading_ignored (Some "0.625"%string) [] []
                    Samples.four_angle_reading "east_head"));
      [reflexivity | discriminate].
  - apply (proj2 (other_component_reading_ignored (Some "0.625"%string)
                    [Samples.four_angle_reading] []
                    DoubleSamples.constructor_reading "shell")).
    reflexivity.
Defined.

(** Without such a reading the run does not throw and gives the
    thicknesses of the grouping on own keys. *)
Lemma recalculate_checked_agrees (nominal : option string)
    (tmlReadings : list Router.TmlReading) (type : string) :
  existsb (fun r => RouterChecked.inherited (RouterChecked.group_key r))
          tmlReadings = false ->
  RouterChecked.recalculate_thicknesses nominal tmlReadings type
  = Some (Router.recalculate_thicknesses nominal tmlReadings type).
Proof.
  intro H. now rewrite recalculate_checked_spec, H, recalculate_partition.
Qed.

(** ** Instances *)

Lemma reported_interval_capped_witness :
  exists years,
    nround_to 10 (calculateNextInspectionInterval (Fin 35)) = Fin years /\
    0 <= years <= 10.
Proof.
  destruct (reported_interval_capped (Fin 35)) as [[H _] | [_ H]].
  - discriminate H.
  - exact H.
Defined.

Lemma time_span_signed_and_additive_witness :
  0 < CalculationsExt.calculateTimeSpanYears 0 31557600000.
Proof.
  apply (proj1 (time_span_signed_and_additive 0 31557600000 0)).
  reflexivity.
Defined.


Lemma worst_case_previous_witness :
  (snd (Router.worstCaseThicknesses (Some "0.625"%string)
          [Samples.four_angle_reading]) <=? Router.parseFloat "0.520")%num
  = true.
Proof.
  destruct (worst_case_previous (Some "0.625"%string)
              [Samples.four_angle_reading]) as [[Hnil _] | [_ Hle]].
  - discriminate Hnil.
  - apply Hle. left. reflexivity.
Defined.

Lemma worst_case_actual_witness :
  (fst (Router.worstCaseThicknesses (Some "0.625"%string)
          [Samples.four_angle_reading]) <=? Router.parseFloat "0.500")%num
  = true.
Proof.
  destruct (worst_case_actual (Some "0.625"%string)
              [Samples.four_angle_reading]) as [[Hnil _] | [_ Hle]].
  - discriminate Hnil.
  - apply Hle. left. reflexivity.
Defined.
